(** * Therapy_Bot: the crisis classifier and the /chat handler of backend/app.py

    A shallow embedding of [is_crisis_message], [generate_response],
    [chat] and the start-up block of the module, and the properties of the
    classifier, of the dispatcher and of start-up.

    Conventions of the model.
    - A Python [str] is a [string]; each character is a code point in
      U+0000..U+00FF.  On these, [str.lower], [str.strip], [in] and
      [re.sub(r'\*+', '', _)] are the functions of module [PyStr].
    - A computation is a value of [M A]: the events it emits, in order
      (entries into the classifier, calls of the generative model, log
      records), and either a value or a raised exception.
    - The generative model is a parameter: a function from the prompt and
      the generation configuration to the text of the response, or to the
      exception that the call or the [.text] accessor raises. *)

From Stdlib Require Import String Ascii List Bool NArith ZArith QArith Lia.
Import ListNotations.

Local Open Scope list_scope.
Local Open Scope string_scope.

(* ------------------------------------------------------------------ *)
(** * Python strings *)

Module PyStr.

(** Upper-case letters below U+0100: A-Z, and the Latin-1 letters
    U+00C0..U+00DE without the multiplication sign U+00D7. *)
Definition is_upper (c : ascii) : bool :=
  let n := N_of_ascii c in
  ((65 <=? n) && (n <=? 90) || (192 <=? n) && (n <=? 214)
   || (216 <=? n) && (n <=? 222))%N.

Definition lower_char (c : ascii) : ascii :=
  if is_upper c then ascii_of_N (N_of_ascii c + 32) else c.

(** [s.lower()] *)
Fixpoint lower (s : string) : string :=
  match s with
  | EmptyString => EmptyString
  | String c s' => String (lower_char c) (lower s')
  end.

(** [c.isspace()]: TAB LF VT FF CR, FS GS RS US, SPACE, NEL, NBSP. *)
Definition is_space (c : ascii) : bool :=
  let n := N_of_ascii c in
  ((9 <=? n) && (n <=? 13) || (28 <=? n) && (n <=? 32)
   || (n =? 133) || (n =? 160))%N.

Fixpoint lstrip (s : string) : string :=
  match s with
  | EmptyString => EmptyString
  | String c s' => if is_space c then lstrip s' else s
  end.

Fixpoint rstrip (s : string) : string :=
  match s with
  | EmptyString => EmptyString
  | String c s' =>
      match rstrip s' with
      | EmptyString => if is_space c then EmptyString else String c EmptyString
      | r => String c r
      end
  end.

(** [s.strip()] *)
Definition strip (s : string) : string := rstrip (lstrip s).

(** [s.startswith(p)] *)
Fixpoint startswith (p s : string) : bool :=
  match p, s with
  | EmptyString, _ => true
  | String a p', String b s' => Ascii.eqb a b && startswith p' s'
  | String _ _, EmptyString => false
  end.

(** [sub in s] *)
Fixpoint contains (sub s : string) : bool :=
  startswith sub s ||
  match s with
  | EmptyString => false
  | String _ s' => contains sub s'
  end.

(** [re.sub(r'\*+', '', s)]: every maximal run of asterisks is replaced
    by the empty string, which leaves the characters that are no
    asterisk, in order. *)
Fixpoint sub_stars (s : string) : string :=
  match s with
  | EmptyString => EmptyString
  | String c s' =>
      if Ascii.eqb c "*"%char then sub_stars s' else String c (sub_stars s')
  end.

(** [not s] / [bool(s)] *)
Definition is_empty (s : string) : bool :=
  match s with EmptyString => true | String _ _ => false end.

End PyStr.

(* ------------------------------------------------------------------ *)
(** * Values, exceptions and computations *)

(** The Python values a decoded JSON body is made of.  A [dict] is the
    list of its items; its keys are distinct, and a lookup returns the
    binding of the key. *)
#[warnings="-register-all"] Inductive pyval : Type :=
| PNone
| PBool (b : bool)
| PInt (n : Z)
| PFloat (q : Q)
| PStr (s : string)
| PList (l : list pyval)
| PDict (d : list (string * pyval)).

(** [type(v).__name__] *)
Definition type_name (v : pyval) : string :=
  match v with
  | PNone => "NoneType"
  | PBool _ => "bool"
  | PInt _ => "int"
  | PFloat _ => "float"
  | PStr _ => "str"
  | PList _ => "list"
  | PDict _ => "dict"
  end.

(** An instance of a subclass of [Exception]: its class and [str(e)]. *)
Record exn : Type := Exn { exn_type : string; exn_str : string }.

Inductive result (A : Type) : Type :=
| Ok (a : A)
| Raise (e : exn).
Arguments Ok {A} a.
Arguments Raise {A} e.

Inductive level : Type := INFO | ERROR.

(** [generation_config] of [model.generate_content]. *)
Record generation_config : Type :=
  { temperature : Q; max_output_tokens : Z }.

(** What a computation does besides returning. *)
Inductive event : Type :=
| Classify (text : string)                                (* is_crisis_message entered *)
| Generate (prompt : string) (config : generation_config) (* model.generate_content called *)
| Log (lvl : level) (msg : string).                       (* logger.info / logger.error *)

(** The generative model behind [model.generate_content(...)] and
    [response.text]. *)
Definition Model : Type := string -> generation_config -> result string.

(** A computation: the events emitted, oldest first, and the outcome. *)
Definition M (A : Type) : Type := (list event * result A)%type.

Definition ret {A} (a : A) : M A := ([], Ok a).

Definition raise {A} (e : exn) : M A := ([], Raise e).

Definition bind {A B} (m : M A) (f : A -> M B) : M B :=
  match m with
  | (t, Ok a) => let (t', r) := f a in ((t ++ t')%list, r)
  | (t, Raise e) => (t, Raise e)
  end.

Definition emit (ev : event) : M unit := ([ev], Ok tt).

Definition lift {A} (r : result A) : M A := ([], r).

(** [try: m  except Exception as e: h e] *)
Definition try_except {A} (m : M A) (h : exn -> M A) : M A :=
  match m with
  | (t, Ok a) => (t, Ok a)
  | (t, Raise e) => let (t', r) := h e in ((t ++ t')%list, r)
  end.

Notation "x <- c ;; k" := (bind c (fun x => k))
  (at level 61, c at next level, right associativity).
Notation "c ;; k" := (bind c (fun _ => k))
  (at level 61, right associativity).

Definition events {A} (m : M A) : list event := fst m.
Definition outcome {A} (m : M A) : result A := snd m.

Definition is_generate (ev : event) : bool :=
  match ev with Generate _ _ => true | _ => false end.

Definition is_classify (ev : event) : bool :=
  match ev with Classify _ => true | _ => false end.

Definition is_log (ev : event) : bool :=
  match ev with Log _ _ => true | _ => false end.

(** The calls of the generative model among the events. *)
Definition model_calls (t : list event) : list event := filter is_generate t.

(** The entries into the classifier among the events. *)
Definition classifier_calls (t : list event) : list event := filter is_classify t.

Definition log_records (t : list event) : list event := filter is_log t.

Definition AttributeError (v : pyval) (attr : string) : exn :=
  Exn "AttributeError"
      ("'" ++ type_name v ++ "' object has no attribute '" ++ attr ++ "'").

Definition KeyError (repr_key : string) : exn := Exn "KeyError" repr_key.

Definition ValueError (msg : string) : exn := Exn "ValueError" msg.

(** [d.get(key, default)] on a decoded body: only a [dict] has [get]. *)
Fixpoint items_get (d : list (string * pyval)) (key : string) : option pyval :=
  match d with
  | [] => None
  | (k, v) :: d' => if String.eqb k key then Some v else items_get d' key
  end.

Definition get (data : pyval) (key : string) (default : pyval) : M pyval :=
  match data with
  | PDict d =>
      match items_get d key with
      | Some v => ret v
      | None => ret default
      end
  | _ => raise (AttributeError data "get")
  end.

(** [v.strip()]: only a [str] has [strip]. *)
Definition strip (v : pyval) : M string :=
  match v with
  | PStr s => ret (PyStr.strip s)
  | _ => raise (AttributeError v "strip")
  end.

(* ------------------------------------------------------------------ *)
(** * The request and the reply *)

(** [flask.request]: [is_json] looks at the content type only;
    [get_json()] returns the decoded body or raises. *)
Record request : Type := { is_json : bool; get_json : result pyval }.

(** What the view returns: [jsonify(body), status]; the status is 200
    where the view gives none. *)
Record http_response : Type :=
  { status : Z; body : list (string * pyval) }.

Definition jsonify (b : list (string * pyval)) (code : Z) : http_response :=
  {| status := code; body := b |}.

(* ------------------------------------------------------------------ *)
(** * backend/app.py *)

Definition nl : string := String (ascii_of_nat 10) EmptyString.
Definition dq : string := String (ascii_of_nat 34) EmptyString.

Definition THERAPY_CONTEXT : string :=
  nl ++
  "    You are Serenity AI, a compassionate mental health assistant. Provide brief, supportive responses that:" ++ nl ++
  "    1. Validate feelings (" ++ dq ++ "I hear you're feeling..." ++ dq ++ ")" ++ nl ++
  "    2. Ask one open-ended question" ++ nl ++
  "    3. Offer one simple coping strategy" ++ nl ++
  "    4. Keep responses under 3 sentences" ++ nl ++
  "    " ++ nl ++
  "    For crisis situations:" ++ nl ++
  "    1. Acknowledge the pain (" ++ dq ++ "This sounds really difficult" ++ dq ++ ")" ++ nl ++
  "    2. Provide emergency resources" ++ nl ++
  "    3. Encourage immediate action" ++ nl ++
  "    4. Keep response under 4 sentences" ++ nl ++
  "    ".

(** An entry of [CRISIS_RESOURCES]: the dict with the keys ["response"]
    and ["resources"]. *)
Record crisis_entry : Type :=
  { response : string; resources : list string }.

Definition CRISIS_RESOURCES : list (string * crisis_entry) :=
  [ ("suicide",
     {| response := "I'm deeply concerned about you. Please call the 988 Suicide & Crisis Lifeline now at 988 (US) or your local emergency number.";
        resources := ["988 Suicide & Crisis Lifeline"; "Crisis Text Line: Text HOME to 741741"] |});
    ("self-harm",
     {| response := "Your safety matters. Please reach out to someone you trust or text HOME to 741741 to connect with a crisis counselor.";
        resources := ["Crisis Text Line: Text HOME to 741741"] |}) ].

(** [repr(key)] of a [str] without quote or escape, and of [None]. *)
Definition repr_key (key : option string) : string :=
  match key with
  | Some k => "'" ++ k ++ "'"
  | None => "None"
  end.

Fixpoint table_get (d : list (string * crisis_entry)) (key : string)
  : option crisis_entry :=
  match d with
  | [] => None
  | (k, v) :: d' => if String.eqb k key then Some v else table_get d' key
  end.

(** [d[key]]: [KeyError] on a key that is absent; [None] is no key of
    the table. *)
Definition getitem (d : list (string * crisis_entry)) (key : option string)
  : M crisis_entry :=
  match key with
  | Some k =>
      match table_get d k with
      | Some v => ret v
      | None => raise (KeyError (repr_key key))
      end
  | None => raise (KeyError (repr_key key))
  end.

Definition crisis_indicators : list string :=
  [ "kill myself"; "end it all"; "want to die";
    "cut myself"; "self harm"; "hurt myself";
    "suicide"; "ending my life" ].

(** [is_crisis_message(text)] *)
Definition is_crisis_message (text : string) : bool :=
  let text := PyStr.lower text in
  existsb (fun indicator => PyStr.contains indicator text) crisis_indicators.

(** A call of [is_crisis_message], with its entry recorded. *)
Definition call_is_crisis_message (text : string) : M bool :=
  emit (Classify text) ;; ret (is_crisis_message text).

(** The conditional expression of lines 83 and 133:
    ["suicide" if any(word in user_input.lower()
                      for word in ['suicide', 'die', 'end it'])
     else "self-harm"]. *)
Definition crisis_type_of (user_input : string) : string :=
  if existsb (fun word => PyStr.contains word (PyStr.lower user_input))
             ["suicide"; "die"; "end it"]
  then "suicide" else "self-harm".

(** The f-string of lines 87-94. *)
Definition make_prompt (user_input : string) : string :=
  nl ++
  "        User message: " ++ user_input ++ nl ++
  "        " ++ nl ++
  "        Please respond with:" ++ nl ++
  "        1. Brief emotional validation" ++ nl ++
  "        2. One open-ended question" ++ nl ++
  "        3. One simple coping suggestion" ++ nl ++
  "        ".

Definition the_generation_config : generation_config :=
  {| temperature := 7 # 10; max_output_tokens := 150 |}.

Definition fallback_text : string :=
  "I'm having trouble responding. Could you rephrase that or try again later?".

Definition empty_message_text : string :=
  "I'm here when you're ready to talk".

Definition unable_text : string :=
  "I'm unable to respond properly right now. Please try again later.".

Section Handler.

Variable model : Model.

(** [model.generate_content(prompt, generation_config=config).text] *)
Definition generate_content (prompt : string) (config : generation_config)
  : M string :=
  emit (Generate prompt config) ;; lift (model prompt config).

(** [generate_response(user_input)] *)
Definition generate_response (user_input : string) : M string :=
  try_except
    (crisis <- call_is_crisis_message user_input ;;
     if crisis then
       let crisis_type := crisis_type_of user_input in
       entry <- getitem CRISIS_RESOURCES (Some crisis_type) ;;
       ret (response entry)
     else
       let prompt := make_prompt user_input in
       text <- generate_content (THERAPY_CONTEXT ++ prompt)
                                the_generation_config ;;
       if PyStr.is_empty text then
         raise (ValueError "Empty response from model")
       else
         let cleaned := PyStr.sub_stars text in
         ret (PyStr.strip cleaned))
    (fun e =>
       emit (Log ERROR ("Response generation failed: " ++ exn_str e)) ;;
       ret fallback_text).

(** The [try] block of [chat()]. *)
Definition chat_body (req : request) : M http_response :=
  if negb (is_json req) then
    ret (jsonify [("error", PStr "JSON input required")] 400)
  else
    data <- lift (get_json req) ;;
    message <- get data "message" (PStr "") ;;
    user_input <- strip message ;;
    if PyStr.is_empty user_input then
      ret (jsonify [("response", PStr empty_message_text)] 200)
    else
      is_crisis <- call_is_crisis_message user_input ;;
      let crisis_type :=
        if is_crisis then Some (crisis_type_of user_input) else None in
      reply <-
        (if is_crisis then
           e1 <- getitem CRISIS_RESOURCES crisis_type ;;
           e2 <- getitem CRISIS_RESOURCES crisis_type ;;
           ret (response e1, resources e2)
         else
           r <- generate_response user_input ;;
           ret (r, [])) ;;
      emit (Log INFO ("User: " ++ user_input)) ;;
      emit (Log INFO ("AI: " ++ fst reply)) ;;
      ret (jsonify [ ("response", PStr (fst reply));
                     ("is_crisis", PBool is_crisis);
                     ("resources", PList (map PStr (snd reply)));
                     ("success", PBool true) ] 200).

(** [chat()]: the [try] block and its [except Exception] clause. *)
Definition chat (req : request) : M http_response :=
  try_except (chat_body req)
    (fun e =>
       emit (Log ERROR ("Endpoint error: " ++ exn_str e)) ;;
       ret (jsonify [ ("response", PStr unable_text);
                      ("success", PBool false) ] 500)).

End Handler.

(** A request whose JSON body is [{"message": text}]. *)
Definition message_request (text : string) : request :=
  {| is_json := true; get_json := Ok (PDict [("message", PStr text)]) |}.

(** The verdict [chat()] computes in lines 129-133: the flag, and the
    category when the flag is set. *)
Definition classify (user_input : string) : M (bool * option string) :=
  is_crisis <- call_is_crisis_message user_input ;;
  ret (is_crisis,
       if is_crisis then Some (crisis_type_of user_input) else None).

(** The reply of the full shape: [response], [is_crisis], [resources],
    [success], with status 200. *)
Definition full_reply (text : string) (is_crisis : bool) (res : list string)
  : http_response :=
  jsonify [ ("response", PStr text);
            ("is_crisis", PBool is_crisis);
            ("resources", PList (map PStr res));
            ("success", PBool true) ] 200.

(** The status of the reply a request ends with. *)
Definition status_of (r : result http_response) : option Z :=
  match r with Ok resp => Some (status resp) | Raise _ => None end.

(** A field of the body of a reply. *)
Definition field (r : http_response) (key : string) : option pyval :=
  items_get (body r) key.

(* ------------------------------------------------------------------ *)
(** * Definitions used by the statements *)

(** Lines 128-152 of [chat()], for a message that is not empty. *)
Definition respond (model : Model) (user_input : string) : M http_response :=
  is_crisis <- call_is_crisis_message user_input ;;
  let crisis_type :=
    if is_crisis then Some (crisis_type_of user_input) else None in
  reply <-
    (if is_crisis then
       e1 <- getitem CRISIS_RESOURCES crisis_type ;;
       e2 <- getitem CRISIS_RESOURCES crisis_type ;;
       ret (response e1, resources e2)
     else
       r <- generate_response model user_input ;;
       ret (r, [])) ;;
  emit (Log INFO ("User: " ++ user_input)) ;;
  emit (Log INFO ("AI: " ++ fst reply)) ;;
  ret (jsonify [ ("response", PStr (fst reply));
                 ("is_crisis", PBool is_crisis);
                 ("resources", PList (map PStr (snd reply)));
                 ("success", PBool true) ] 200).

(** A model whose call raises. *)
Definition failing_model : Model :=
  fun _ _ => Raise (Exn "RuntimeError" "model unavailable").

(** A model that answers with a single space. *)
Definition blank_model : Model := fun _ _ => Ok " ".

(** A model that answers with the empty text. *)
Definition empty_model : Model := fun _ _ => Ok "".

Definition category_words : list string := ["suicide"; "die"; "end it"].

(** The reply of the [except] clause of [chat()]. *)
Definition error_reply : http_response :=
  jsonify [ ("response", PStr unable_text); ("success", PBool false) ] 500.

(** The reply to an empty message. *)
Definition empty_reply : http_response :=
  jsonify [ ("response", PStr empty_message_text) ] 200.

(** A request whose JSON body is [{"message": 5}]. *)
Definition number_request : request :=
  {| is_json := true; get_json := Ok (PDict [("message", PInt 5)]) |}.

(** Every request is answered in one of five ways. *)
Inductive chat_path (model : Model) (req : request) : Prop :=
| path_not_json :
    is_json req = false ->
    outcome (chat model req) =
      Ok (jsonify [("error", PStr "JSON input required")] 400) ->
    chat_path model req
| path_error :
    outcome (chat model req) = Ok error_reply ->
    chat_path model req
| path_empty :
    outcome (chat model req) = Ok empty_reply ->
    chat_path model req
| path_crisis (d : list (string * pyval)) (s : string) (entry : crisis_entry) :
    get_json req = Ok (PDict d) ->
    items_get d "message" = Some (PStr s) ->
    is_crisis_message (PyStr.strip s) = true ->
    outcome (chat model req) =
      Ok (full_reply (response entry) true (resources entry)) ->
    chat_path model req
| path_plain (d : list (string * pyval)) (s text : string) :
    get_json req = Ok (PDict d) ->
    items_get d "message" = Some (PStr s) ->
    is_crisis_message (PyStr.strip s) = false ->
    outcome (chat model req) = Ok (full_reply text false []) ->
    chat_path model req.

(* ------------------------------------------------------------------ *)
(** * Start-up, and definitions for the further properties *)

(** The module-level [try] statement of lines 28-54, over what it reads
    and calls: [os.getenv], [genai.configure(api_key=...)] and
    [genai.GenerativeModel(name)].  It runs once, when the module is
    loaded; the exception of the [except] clause is raised again. *)
Definition initialize (getenv : string -> option string)
           (configure : string -> result unit)
           (GenerativeModel : string -> result Model) : M Model :=
  try_except
    (let GEMINI_API_KEY := getenv "GEMINI_API_KEY" in
     match GEMINI_API_KEY with
     | None | Some EmptyString =>
         raise (ValueError "Missing Gemini API key in environment variables")
     | Some key =>
         lift (configure key) ;;
         model <- lift (GenerativeModel "gemini-2.0-flash") ;;
         emit (Log INFO "Gemini Flash model successfully initialized") ;;
         ret model
     end)
    (fun e =>
       emit (Log ERROR ("Initialization error: " ++ exn_str e)) ;;
       raise e).

(** [all(p(c) for c in s)] *)
Fixpoint all_chars (p : ascii -> bool) (s : string) : bool :=
  match s with
  | EmptyString => true
  | String c s' => p c && all_chars p s'
  end.

(** [s[0]] and [s[-1]], where [s] is not empty. *)
Definition first_char (s : string) : option ascii :=
  match s with
  | EmptyString => None
  | String c _ => Some c
  end.

Fixpoint last_char (s : string) : option ascii :=
  match s with
  | EmptyString => None
  | String c EmptyString => Some c
  | String _ s' => last_char s'
  end.

Definition is_star (c : ascii) : bool := Ascii.eqb c "*"%char.

(** A string that neither starts nor ends with white space. *)
Definition trimmed (s : string) : bool :=
  match first_char s, last_char s with
  | Some a, Some b => negb (PyStr.is_space a) && negb (PyStr.is_space b)
  | _, _ => true
  end.

(** A word that is not empty and neither starts nor ends with white
    space. *)
Definition solid (w : string) : bool :=
  negb (PyStr.is_empty w) && trimmed w.

(** A model that answers with emphasis marks and white space around. *)
Definition markdown_model : Model := fun _ _ => Ok " **I hear you.** ".

(** The status that the shape of a request determines: 400 without a JSON
    content type; 200 for a JSON object whose ["message"] is missing or a
    string; 500 for a body that does not decode, is no object, or whose
    ["message"] is no string. *)
Definition expected_status (req : request) : Z :=
  if negb (is_json req) then 400%Z
  else
    match get_json req with
    | Ok (PDict d) =>
        match items_get d "message" with
        | None | Some (PStr _) => 200%Z
        | Some _ => 500%Z
        end
    | _ => 500%Z
    end.

(** The run of [chat()] on a request, path by path, with the events. *)
Inductive chat_run (model : Model) (req : request) : Prop :=
| run_not_json :
    is_json req = false ->
    chat model req =
      ([], Ok (jsonify [("error", PStr "JSON input required")] 400)) ->
    chat_run model req
| run_error (e : exn) :
    is_json req = true ->
    expected_status req = 500%Z ->
    chat model req =
      ([Log ERROR ("Endpoint error: " ++ exn_str e)], Ok error_reply) ->
    chat_run model req
| run_empty :
    is_json req = true ->
    expected_status req = 200%Z ->
    chat model req = ([], Ok empty_reply) ->
    chat_run model req
| run_crisis (d : list (string * pyval)) (s : string) (entry : crisis_entry) :
    is_json req = true ->
    get_json req = Ok (PDict d) ->
    items_get d "message" = Some (PStr s) ->
    is_crisis_message (PyStr.strip s) = true ->
    table_get CRISIS_RESOURCES (crisis_type_of (PyStr.strip s)) = Some entry ->
    chat model req =
      ([ Classify (PyStr.strip s);
         Log INFO ("User: " ++ PyStr.strip s);
         Log INFO ("AI: " ++ response entry) ],
       Ok (full_reply (response entry) true (resources entry))) ->
    chat_run model req
| run_plain (d : list (string * pyval)) (s : string)
            (t : list event) (r : string) :
    is_json req = true ->
    get_json req = Ok (PDict d) ->
    items_get d "message" = Some (PStr s) ->
    PyStr.is_empty (PyStr.strip s) = false ->
    is_crisis_message (PyStr.strip s) = false ->
    generate_response model (PyStr.strip s) = (t, Ok r) ->
    chat model req =
      ((Classify (PyStr.strip s) :: t ++
        [ Log INFO ("User: " ++ PyStr.strip s); Log INFO ("AI: " ++ r) ])%list,
       Ok (full_reply r false [])) ->
    chat_run model req.

(* ------------------------------------------------------------------ *)
(** * Substring containment, specified *)

Section ContainsSpec.
Import PyStr.

Lemma startswith_app (p s : string) : startswith p (p ++ s) = true.
Proof.
  induction p as [|a p IH]; simpl; [reflexivity|].
  now rewrite Ascii.eqb_refl, IH.
Qed.

Lemma startswith_inv (p s : string) :
  startswith p s = true -> exists suf, s = p ++ suf.
Proof.
  revert s; induction p as [|a p IH]; intros s H.
  - now exists s.
  - destruct s as [|b s]; simpl in H; [discriminate|].
    apply andb_true_iff in H as [Hab Hps].
    apply Ascii.eqb_eq in Hab; subst b.
    destruct (IH _ Hps) as [suf ->].
    now exists suf.
Qed.

Lemma contains_intro (sub pre suf : string) :
  contains sub (pre ++ sub ++ suf) = true.
Proof.
  induction pre as [|c pre IH].
  - change (contains sub (sub ++ suf) = true).
    pose proof (startswith_app sub suf) as H.
    destruct (sub ++ suf); simpl; now rewrite H.
  - change (contains sub (String c (pre ++ sub ++ suf)) = true).
    simpl. rewrite IH. apply orb_true_r.
Qed.

Lemma contains_inv (sub s : string) :
  contains sub s = true -> exists pre suf, s = pre ++ sub ++ suf.
Proof.
  induction s as [|c s IH]; simpl; intros H.
  - rewrite orb_false_r in H.
    destruct (startswith_inv _ _ H) as [suf E].
    now exists EmptyString, suf.
  - apply orb_true_iff in H as [H|H].
    + destruct (startswith_inv _ _ H) as [suf E].
      now exists EmptyString, suf.
    + destruct (IH H) as (pre & suf & ->).
      now exists (String c pre), suf.
Qed.

(** [sub in s] holds exactly when [s] is [pre + sub + suf]. *)
Lemma contains_spec (sub s : string) :
  contains sub s = true <-> exists pre suf, s = pre ++ sub ++ suf.
Proof.
  split.
  - apply contains_inv.
  - intros (pre & suf & ->). apply contains_intro.
Qed.

Lemma lower_app (s t : string) : lower (s ++ t) = lower s ++ lower t.
Proof.
  induction s as [|c s IH]; simpl; [reflexivity | now rewrite IH].
Qed.

(** A literal occurrence survives lower-casing as an occurrence of the
    lower-cased needle. *)
Lemma contains_lower (sub s : string) :
  contains sub s = true -> contains (lower sub) (lower s) = true.
Proof.
  intros H. apply contains_inv in H as (pre & suf & ->).
  rewrite !lower_app. apply contains_intro.
Qed.

End ContainsSpec.

(* ------------------------------------------------------------------ *)
(** * Laws of the computations *)

Lemma bind_ret {A B} (a : A) (f : A -> M B) : bind (ret a) f = f a.
Proof. unfold bind, ret. now destruct (f a). Qed.

Lemma bind_lift_ok {A B} (a : A) (f : A -> M B) : bind (lift (Ok a)) f = f a.
Proof. apply bind_ret. Qed.

Lemma bind_raise {A B} (e : exn) (f : A -> M B) : bind (raise e) f = raise e.
Proof. reflexivity. Qed.

Lemma bind_emit {B} (ev : event) (k : M B) :
  (emit ev ;; k) = (ev :: fst k, snd k).
Proof. unfold bind, emit. now destruct k. Qed.

Lemma bind_ok {A B} (t : list event) (a : A) (f : A -> M B) :
  bind (t, Ok a) f = ((t ++ fst (f a))%list, snd (f a)).
Proof. unfold bind. now destruct (f a). Qed.

Lemma bind_assoc {A B C} (m : M A) (f : A -> M B) (g : B -> M C) :
  bind (bind m f) g = bind m (fun a => bind (f a) g).
Proof.
  destruct m as [t [a|e]]; simpl; [|reflexivity].
  destruct (f a) as [t1 [b|e1]]; simpl; [|reflexivity].
  destruct (g b) as [t2 r]. now rewrite app_assoc.
Qed.

(* ------------------------------------------------------------------ *)
(** * The classifier *)

Lemma existsb_contains (words : list string) (s : string) :
  existsb (fun w => PyStr.contains w s) words = true <->
  exists w, In w words /\ exists pre suf, s = pre ++ w ++ suf.
Proof.
  rewrite existsb_exists. split; intros (w & Hin & H); exists w; split; auto.
  - now apply contains_spec.
  - now apply contains_spec.
Qed.

Lemma crisis_nonempty (u : string) :
  is_crisis_message u = true -> PyStr.is_empty u = false.
Proof. destruct u; [discriminate | reflexivity]. Qed.

Lemma crisis_type_of_cases (u : string) :
  crisis_type_of u = "suicide" \/ crisis_type_of u = "self-harm".
Proof. unfold crisis_type_of. destruct existsb; auto. Qed.

(** Both keys that [crisis_type_of] yields are keys of the table. *)
Lemma crisis_type_in_table (u : string) :
  exists entry, table_get CRISIS_RESOURCES (crisis_type_of u) = Some entry.
Proof.
  destruct (crisis_type_of_cases u) as [-> | ->]; eexists; reflexivity.
Qed.

Lemma crisis_type_of_suicide (m : string) :
  crisis_type_of m = "suicide" <->
  exists w, In w category_words /\
            exists pre suf, PyStr.lower m = pre ++ w ++ suf.
Proof.
  rewrite <- existsb_contains. unfold crisis_type_of, category_words.
  destruct existsb; split; intros H; try reflexivity; discriminate.
Qed.

Lemma crisis_type_of_self_harm (m : string) :
  crisis_type_of m = "self-harm" <->
  ~ exists w, In w category_words /\
              exists pre suf, PyStr.lower m = pre ++ w ++ suf.
Proof.
  rewrite <- existsb_contains. unfold crisis_type_of, category_words.
  destruct existsb; split; intros H.
  - discriminate.
  - now destruct H.
  - discriminate.
  - reflexivity.
Qed.

Lemma classify_eq (m : string) :
  classify m =
    ([Classify m],
     Ok (is_crisis_message m,
         if is_crisis_message m then Some (crisis_type_of m) else None)).
Proof.
  unfold classify, call_is_crisis_message.
  now rewrite bind_assoc, bind_emit, !bind_ret.
Qed.

(* ------------------------------------------------------------------ *)
(** * The paths of the handler *)

Local Opaque THERAPY_CONTEXT make_prompt String.append.

(** A JSON object whose ["message"] is a string: the handler strips it and
    either answers the empty message or goes on to lines 128-152. *)
Lemma chat_body_message (model : Model) (req : request)
      (d : list (string * pyval)) (s : string) :
  is_json req = true ->
  get_json req = Ok (PDict d) ->
  items_get d "message" = Some (PStr s) ->
  chat_body model req =
    if PyStr.is_empty (PyStr.strip s)
    then ret (jsonify [("response", PStr empty_message_text)] 200)
    else respond model (PyStr.strip s).
Proof.
  intros Hj Hg Hm. unfold chat_body. rewrite Hj, Hg. simpl negb. cbv iota.
  rewrite bind_lift_ok. unfold get. rewrite Hm, bind_ret.
  unfold strip. rewrite bind_ret. reflexivity.
Qed.

(** A JSON object without ["message"]: the default [''] is stripped. *)
Lemma chat_body_missing (model : Model) (req : request)
      (d : list (string * pyval)) :
  is_json req = true ->
  get_json req = Ok (PDict d) ->
  items_get d "message" = None ->
  chat_body model req =
    ret (jsonify [("response", PStr empty_message_text)] 200).
Proof.
  intros Hj Hg Hm. unfold chat_body. rewrite Hj, Hg. simpl negb. cbv iota.
  rewrite bind_lift_ok. unfold get. rewrite Hm, bind_ret.
  unfold strip. rewrite bind_ret. reflexivity.
Qed.

(** The crisis path of lines 128-152. *)
Lemma respond_crisis (model : Model) (u : string) :
  is_crisis_message u = true ->
  exists entry,
    table_get CRISIS_RESOURCES (crisis_type_of u) = Some entry /\
    respond model u =
      ([ Classify u;
         Log INFO ("User: " ++ u);
         Log INFO ("AI: " ++ response entry) ],
       Ok (full_reply (response entry) true (resources entry))).
Proof.
  intros Hc. destruct (crisis_type_in_table u) as [entry He].
  exists entry. split; [exact He|].
  unfold respond, call_is_crisis_message.
  rewrite bind_assoc, bind_emit, bind_ret, Hc.
  unfold getitem. rewrite He. rewrite !bind_ret, !bind_emit.
  reflexivity.
Qed.

(** The crisis branch of [generate_response]. *)
Lemma generate_response_crisis (model : Model) (u : string) :
  is_crisis_message u = true ->
  exists entry,
    table_get CRISIS_RESOURCES (crisis_type_of u) = Some entry /\
    generate_response model u = ([Classify u], Ok (response entry)).
Proof.
  intros Hc. destruct (crisis_type_in_table u) as [entry He].
  exists entry. split; [exact He|].
  unfold generate_response, call_is_crisis_message.
  rewrite bind_assoc, bind_emit, bind_ret, Hc.
  unfold getitem. rewrite He, bind_ret. reflexivity.
Qed.

(** The generation branch of [generate_response], by what the model does. *)
Lemma generate_response_plain (model : Model) (u : string) :
  is_crisis_message u = false ->
  generate_response model u =
    let prompt := THERAPY_CONTEXT ++ make_prompt u in
    let called := [Classify u; Generate prompt the_generation_config] in
    match model prompt the_generation_config with
    | Ok text =>
        if PyStr.is_empty text then
          ((called ++
            [Log ERROR "Response generation failed: Empty response from model"])%list,
           Ok fallback_text)
        else (called, Ok (PyStr.strip (PyStr.sub_stars text)))
    | Raise e =>
        ((called ++
          [Log ERROR ("Response generation failed: " ++ exn_str e)])%list,
         Ok fallback_text)
    end.
Proof.
  intros Hc. unfold generate_response, call_is_crisis_message.
  rewrite bind_assoc, bind_emit, bind_ret, Hc.
  unfold generate_content. rewrite bind_assoc, bind_emit.
  cbv zeta.
  destruct (model (THERAPY_CONTEXT ++ make_prompt u) the_generation_config)
    as [text|e].
  - rewrite bind_lift_ok. destruct (PyStr.is_empty text); reflexivity.
  - reflexivity.
Qed.

(** [generate_response] returns a string whatever the model does. *)
Lemma generate_response_returns (model : Model) (u : string) :
  exists t r, generate_response model u = (t, Ok r).
Proof.
  destruct (is_crisis_message u) eqn:Hc.
  - destruct (generate_response_crisis model u Hc) as (entry & _ & ->).
    eauto.
  - rewrite (generate_response_plain model u Hc). cbv zeta.
    destruct model as [text|e]; [destruct PyStr.is_empty|]; eauto.
Qed.

(** The other path of lines 128-152. *)
Lemma respond_plain (model : Model) (u : string) (t : list event) (r : string) :
  is_crisis_message u = false ->
  generate_response model u = (t, Ok r) ->
  respond model u =
    ((Classify u :: t ++
      [Log INFO ("User: " ++ u); Log INFO ("AI: " ++ r)])%list,
     Ok (full_reply r false [])).
Proof.
  intros Hc Hg. unfold respond, call_is_crisis_message.
  rewrite bind_assoc, bind_emit, bind_ret, Hc, Hg.
  rewrite bind_assoc, bind_ok, bind_ret, !bind_emit.
  reflexivity.
Qed.

Lemma chat_of_body_ok (model : Model) (req : request)
      (t : list event) (r : http_response) :
  chat_body model req = (t, Ok r) -> chat model req = (t, Ok r).
Proof. intros H. unfold chat. now rewrite H. Qed.

Lemma chat_of_body_raise (model : Model) (req : request)
      (t : list event) (e : exn) :
  chat_body model req = (t, Raise e) ->
  chat model req =
    ((t ++ [Log ERROR ("Endpoint error: " ++ exn_str e)])%list, Ok error_reply).
Proof.
  intros H. unfold chat. rewrite H. unfold try_except.
  rewrite bind_emit. reflexivity.
Qed.

Lemma chat_paths (model : Model) (req : request) : chat_path model req.
Proof.
  destruct (is_json req) eqn:Hj.
  2:{ apply path_not_json; [exact Hj|].
      unfold chat, chat_body. rewrite Hj. reflexivity. }
  destruct (get_json req) as [data|e] eqn:Hg.
  2:{ apply path_error. unfold chat, chat_body. rewrite Hj, Hg. reflexivity. }
  assert (Hbad : forall t e, chat_body model req = (t, Raise e) ->
                             chat_path model req).
  { intros t e H. apply path_error.
    now rewrite (chat_of_body_raise model req t e H). }
  destruct data as [ | b | n | q | s0 | l | d ];
    try (eapply Hbad; unfold chat_body; rewrite Hj, Hg; reflexivity).
  destruct (items_get d "message") as [v|] eqn:Hm.
  2:{ apply path_empty.
      now rewrite (chat_of_body_ok model req [] empty_reply
                     (chat_body_missing model req d Hj Hg Hm)). }
  destruct v as [ | b | n | q | s | l | d' ];
    try (eapply Hbad; unfold chat_body, get; rewrite Hj, Hg; simpl negb;
         cbv iota; rewrite bind_lift_ok, Hm, bind_ret; reflexivity).
  pose proof (chat_body_message model req d s Hj Hg Hm) as Hb.
  destruct (PyStr.is_empty (PyStr.strip s)) eqn:Hne.
  { apply path_empty. now rewrite (chat_of_body_ok _ _ _ _ Hb). }
  destruct (is_crisis_message (PyStr.strip s)) eqn:Hc.
  - destruct (respond_crisis model _ Hc) as (entry & He & Hr).
    rewrite Hr in Hb.
    apply (path_crisis model req d s entry Hg Hm Hc).
    now rewrite (chat_of_body_ok _ _ _ _ Hb).
  - destruct (generate_response_returns model (PyStr.strip s)) as (t & r & Hgr).
    rewrite (respond_plain model _ t r Hc Hgr) in Hb.
    apply (path_plain model req d s r Hg Hm Hc).
    now rewrite (chat_of_body_ok _ _ _ _ Hb).
Qed.

(** No exception leaves [chat()]. *)
Lemma chat_never_raises (model : Model) (req : request) :
  exists resp, outcome (chat model req) = Ok resp.
Proof. destruct (chat_paths model req); eauto. Qed.

(* ------------------------------------------------------------------ *)
(** * The claims *)

(** C1, as the spec states it, fails: for the message
    "I want to kill myself" the reply of the handler is not the entry of
    the table under "suicide". *)
Lemma C1_counterexample :
  ~ exists resp,
      outcome (chat failing_model (message_request "I want to kill myself"))
        = Ok resp /\
      field resp "response" =
        Some (PStr "I'm deeply concerned about you. Please call the 988 Suicide & Crisis Lifeline now at 988 (US) or your local emergency number.") /\
      field resp "is_crisis" = Some (PBool true) /\
      field resp "resources" =
        Some (PList [ PStr "988 Suicide & Crisis Lifeline";
                      PStr "Crisis Text Line: Text HOME to 741741" ]).
Proof.
  intros (resp & H & Hr & _).
  vm_compute in H. injection H as <-.
  vm_compute in Hr. discriminate.
Qed.

(** C1, amended: for the message "I want to kill myself" the handler
    returns, whatever the model, the entry of the table under "self-harm":
    the message is flagged by "kill myself" and holds none of "suicide",
    "die", "end it"; is_crisis is true, resources is
    ["Crisis Text Line: Text HOME to 741741"], and the model is not
    called. *)
Theorem C1_kill_myself_self_harm_entry (model : Model) :
  let m := chat model (message_request "I want to kill myself") in
  table_get CRISIS_RESOURCES "self-harm" =
    Some {| response := "Your safety matters. Please reach out to someone you trust or text HOME to 741741 to connect with a crisis counselor.";
            resources := ["Crisis Text Line: Text HOME to 741741"] |} /\
  outcome m =
    Ok (full_reply
          "Your safety matters. Please reach out to someone you trust or text HOME to 741741 to connect with a crisis counselor."
          true ["Crisis Text Line: Text HOME to 741741"]) /\
  model_calls (events m) = [].
Proof.
  cbv zeta. repeat split; vm_compute; reflexivity.
Qed.

(** C2: a message is flagged exactly when its lower-cased form has one of
    the eight indicators as a substring; a message with none of them is
    not flagged. *)
Theorem C2_flag_iff_indicator (text : string) :
  crisis_indicators =
    [ "kill myself"; "end it all"; "want to die"; "cut myself";
      "self harm"; "hurt myself"; "suicide"; "ending my life" ] /\
  (is_crisis_message text = true <->
   exists indicator,
     In indicator crisis_indicators /\
     exists pre suf, PyStr.lower text = pre ++ indicator ++ suf) /\
  ((forall indicator,
      In indicator crisis_indicators ->
      ~ exists pre suf, PyStr.lower text = pre ++ indicator ++ suf) ->
   is_crisis_message text = false /\
   outcome (classify text) = Ok (false, None)).
Proof.
  split; [reflexivity|].
  assert (Hiff : is_crisis_message text = true <->
                 exists indicator,
                   In indicator crisis_indicators /\
                   exists pre suf, PyStr.lower text = pre ++ indicator ++ suf)
    by (unfold is_crisis_message; apply existsb_contains).
  split; [exact Hiff|].
  intros Hnone.
  assert (Hf : is_crisis_message text = false).
  { destruct (is_crisis_message text) eqn:E; [|reflexivity].
    destruct (proj1 Hiff eq_refl) as (i & Hin & Hsub).
    destruct (Hnone i Hin Hsub). }
  split; [exact Hf|].
  rewrite classify_eq. unfold outcome; simpl. now rewrite Hf.
Qed.

(** C2 at "Good morning": none of the eight indicators occurs. *)
Lemma C2_witness :
  is_crisis_message "Good morning" = false /\
  outcome (classify "Good morning") = Ok (false, None).
Proof.
  apply (proj2 (proj2 (C2_flag_iff_indicator "Good morning"))).
  intros i Hin Hsub.
  assert (Hc : PyStr.contains i (PyStr.lower "Good morning") = true)
    by (apply contains_spec; exact Hsub).
  unfold crisis_indicators in Hin. simpl in Hin.
  repeat (destruct Hin as [<- | Hin]; [vm_compute in Hc; discriminate|]).
  exact Hin.
Defined.

(** C3: for a flagged message the category is "suicide" exactly when the
    lower-cased message holds one of "suicide", "die", "end it", and
    "self-harm" (the key of the spec's self_harm entry) otherwise; the
    category depends on these three words alone, not on the indicator that
    flagged the message.  A message that holds "suicide" in any case is
    flagged with category "suicide"; one that holds "cut myself" and none
    of the three words is flagged with category "self-harm". *)
Theorem C3_category (m : string) :
  (is_crisis_message m = true ->
   outcome (classify m) = Ok (true, Some (crisis_type_of m)) /\
   (crisis_type_of m = "suicide" <->
    exists w, In w ["suicide"; "die"; "end it"] /\
              exists pre suf, PyStr.lower m = pre ++ w ++ suf) /\
   (crisis_type_of m = "self-harm" <->
    ~ exists w, In w ["suicide"; "die"; "end it"] /\
                exists pre suf, PyStr.lower m = pre ++ w ++ suf)) /\
  ((exists pre suf, PyStr.lower m = pre ++ "suicide" ++ suf) ->
   outcome (classify m) = Ok (true, Some "suicide")) /\
  ((exists pre suf, PyStr.lower m = pre ++ "cut myself" ++ suf) ->
   (forall w, In w ["suicide"; "die"; "end it"] ->
              ~ exists pre suf, PyStr.lower m = pre ++ w ++ suf) ->
   outcome (classify m) = Ok (true, Some "self-harm")).
Proof.
  rewrite classify_eq. unfold outcome; simpl snd.
  split; [|split].
  - intros Hc. rewrite Hc. split; [reflexivity|]. split.
    + apply crisis_type_of_suicide.
    + apply crisis_type_of_self_harm.
  - intros Hs.
    assert (Hc : is_crisis_message m = true).
    { apply existsb_contains. exists "suicide". split; [|exact Hs].
      unfold crisis_indicators; simpl; tauto. }
    assert (Ht : crisis_type_of m = "suicide").
    { apply crisis_type_of_suicide. exists "suicide". split; [|exact Hs].
      unfold category_words; simpl; tauto. }
    now rewrite Hc, Ht.
  - intros Hs Hnone.
    assert (Hc : is_crisis_message m = true).
    { apply existsb_contains. exists "cut myself". split; [|exact Hs].
      unfold crisis_indicators; simpl; tauto. }
    assert (Ht : crisis_type_of m = "self-harm").
    { apply crisis_type_of_self_harm. intros (w & Hin & Hw).
      exact (Hnone w Hin Hw). }
    now rewrite Hc, Ht.
Qed.

(** C3 at "I keep wanting to cut myself" and at "SUICIDE hotline". *)
Lemma C3_witness :
  outcome (classify "I keep wanting to cut myself")
    = Ok (true, Some "self-harm") /\
  outcome (classify "SUICIDE hotline") = Ok (true, Some "suicide") /\
  outcome (classify "I want to kill myself")
    = Ok (true, Some (crisis_type_of "I want to kill myself")).
Proof.
  split; [|split].
  - apply (proj2 (proj2 (C3_category "I keep wanting to cut myself"))).
    + exists "i keep wanting to ", "". reflexivity.
    + intros w Hin Hsub.
      assert (Hc : PyStr.contains w
                     (PyStr.lower "I keep wanting to cut myself") = true)
        by (apply contains_spec; exact Hsub).
      simpl in Hin.
      repeat (destruct Hin as [<- | Hin]; [vm_compute in Hc; discriminate|]).
      exact Hin.
  - apply (proj1 (proj2 (C3_category "SUICIDE hotline"))).
    exists "", " hotline". reflexivity.
  - apply (proj1 (C3_category "I want to kill myself")). reflexivity.
Defined.

(** C4: a message that is missing, empty or made of white space alone is
    answered with status 200 and the body
    {"response": "I'm here when you're ready to talk"}, which holds no
    other field; neither the classifier nor the model is called. *)
Theorem C4_empty_message (model : Model) (req : request)
        (d : list (string * pyval)) :
  is_json req = true ->
  get_json req = Ok (PDict d) ->
  (items_get d "message" = None \/
   exists s, items_get d "message" = Some (PStr s) /\ PyStr.strip s = "") ->
  outcome (chat model req) =
    Ok {| status := 200;
          body := [("response", PStr "I'm here when you're ready to talk")] |} /\
  classifier_calls (events (chat model req)) = [] /\
  model_calls (events (chat model req)) = [].
Proof.
  intros Hj Hg Hm.
  assert (Hb : chat_body model req = ret empty_reply).
  { destruct Hm as [Hm | (s & Hm & Hs)].
    - now apply chat_body_missing with (d := d).
    - rewrite (chat_body_message model req d s Hj Hg Hm), Hs. reflexivity. }
  rewrite (chat_of_body_ok model req [] empty_reply Hb).
  repeat split.
Qed.

(** C4 at the message of three spaces. *)
Lemma C4_witness :
  outcome (chat failing_model (message_request "   ")) =
    Ok {| status := 200;
          body := [("response", PStr "I'm here when you're ready to talk")] |} /\
  classifier_calls (events (chat failing_model (message_request "   "))) = [] /\
  model_calls (events (chat failing_model (message_request "   "))) = [].
Proof.
  apply (C4_empty_message failing_model (message_request "   ")
           [("message", PStr "   ")]).
  - reflexivity.
  - reflexivity.
  - right. exists "   ". split; reflexivity.
Defined.

(** C5: for a message flagged as crisis the handler returns the entry of
    the table under the computed category: its response text, is_crisis
    true, its resources, success true, status 200; the model is not called,
    neither by the handler nor by the crisis branch of
    [generate_response]. *)
Theorem C5_crisis_entry (model : Model) (req : request)
        (d : list (string * pyval)) (s : string) :
  is_json req = true ->
  get_json req = Ok (PDict d) ->
  items_get d "message" = Some (PStr s) ->
  is_crisis_message (PyStr.strip s) = true ->
  exists entry,
    table_get CRISIS_RESOURCES (crisis_type_of (PyStr.strip s)) = Some entry /\
    outcome (chat model req) =
      Ok {| status := 200;
            body := [ ("response", PStr (response entry));
                      ("is_crisis", PBool true);
                      ("resources", PList (map PStr (resources entry)));
                      ("success", PBool true) ] |} /\
    model_calls (events (chat model req)) = [] /\
    outcome (generate_response model (PyStr.strip s)) = Ok (response entry) /\
    model_calls (events (generate_response model (PyStr.strip s))) = [].
Proof.
  intros Hj Hg Hm Hc.
  destruct (respond_crisis model _ Hc) as (entry & He & Hr).
  destruct (generate_response_crisis model _ Hc) as (entry' & He' & Hgr).
  assert (entry' = entry) by congruence; subst entry'.
  exists entry. split; [exact He|].
  pose proof (chat_body_message model req d s Hj Hg Hm) as Hb.
  rewrite (crisis_nonempty _ Hc), Hr in Hb.
  rewrite (chat_of_body_ok _ _ _ _ Hb), Hgr.
  repeat split.
Qed.

(** C5 at "  I can't stop thinking about suicide  ". *)
Lemma C5_witness :
  exists entry,
    table_get CRISIS_RESOURCES
      (crisis_type_of (PyStr.strip "  I can't stop thinking about suicide  "))
      = Some entry /\
    outcome (chat failing_model
               (message_request "  I can't stop thinking about suicide  ")) =
      Ok {| status := 200;
            body := [ ("response", PStr (response entry));
                      ("is_crisis", PBool true);
                      ("resources", PList (map PStr (resources entry)));
                      ("success", PBool true) ] |} /\
    model_calls
      (events (chat failing_model
                 (message_request "  I can't stop thinking about suicide  ")))
      = [] /\
    outcome (generate_response failing_model
               (PyStr.strip "  I can't stop thinking about suicide  "))
      = Ok (response entry) /\
    model_calls
      (events (generate_response failing_model
                 (PyStr.strip "  I can't stop thinking about suicide  ")))
      = [].
Proof.
  apply (C5_crisis_entry failing_model
           (message_request "  I can't stop thinking about suicide  ")
           [("message", PStr "  I can't stop thinking about suicide  ")]);
    reflexivity.
Defined.

(** C6 does not hold of the code on a blank answer.  For the message
    "hello", which is not flagged, and a model that answers " ", the guard
    of line 104 lets the answer through, since it tests the text before
    the asterisks are removed and the text is stripped: the reply carries
    the empty text and not the fallback text.  [chat()] itself strips
    before it tests: the message " " gets the reply to an empty message. *)
Lemma C6_blank_answer_not_replaced :
  is_crisis_message "hello" = false /\
  blank_model (THERAPY_CONTEXT ++ make_prompt "hello") the_generation_config
    = Ok " " /\
  PyStr.strip (PyStr.sub_stars " ") = "" /\
  outcome (generate_response blank_model "hello") = Ok "" /\
  outcome (chat blank_model (message_request "hello"))
    = Ok (full_reply "" false []) /\
  (~ exists resp,
      outcome (chat blank_model (message_request "hello")) = Ok resp /\
      field resp "response" =
        Some (PStr "I'm having trouble responding. Could you rephrase that or try again later?")) /\
  outcome (chat blank_model (message_request " ")) = Ok empty_reply.
Proof.
  repeat split.
  intros (resp & H & Hr).
  vm_compute in H. injection H as <-.
  vm_compute in Hr. discriminate.
Qed.

(** C7: when an exception escapes the [try] block of the handler, the
    handler returns status 500 with the body
    {"response": "I'm unable to respond properly right now. Please try
    again later.", "success": false}; the exception is logged and does not
    reach the caller. *)
Theorem C7_escaping_exception (model : Model) (req : request)
        (t : list event) (e : exn) :
  chat_body model req = (t, Raise e) ->
  outcome (chat model req) =
    Ok {| status := 500;
          body := [ ("response", PStr "I'm unable to respond properly right now. Please try again later.");
                    ("success", PBool false) ] |} /\
  events (chat model req) =
    (t ++ [Log ERROR ("Endpoint error: " ++ exn_str e)])%list.
Proof.
  intros H. rewrite (chat_of_body_raise model req t e H). split; reflexivity.
Qed.

(** C7 at the body {"message": 5}: [strip] raises AttributeError. *)
Lemma C7_witness :
  outcome (chat failing_model number_request) =
    Ok {| status := 500;
          body := [ ("response", PStr "I'm unable to respond properly right now. Please try again later.");
                    ("success", PBool false) ] |} /\
  events (chat failing_model number_request) =
    ([] ++ [Log ERROR ("Endpoint error: "
                       ++ exn_str (AttributeError (PInt 5) "strip"))])%list.
Proof.
  apply (C7_escaping_exception failing_model number_request []
           (AttributeError (PInt 5) "strip")).
  reflexivity.
Defined.

(** C9: a message that is not empty and not flagged is answered with
    status 200, is_crisis false, resources [] and success true, whatever
    the model does; and a reply whose resources are not empty answers a
    flagged message. *)
Theorem C9_plain_reply_shape (model : Model) (req : request) :
  (forall d s,
     is_json req = true ->
     get_json req = Ok (PDict d) ->
     items_get d "message" = Some (PStr s) ->
     PyStr.is_empty (PyStr.strip s) = false ->
     is_crisis_message (PyStr.strip s) = false ->
     exists text,
       outcome (chat model req) =
         Ok {| status := 200;
               body := [ ("response", PStr text);
                         ("is_crisis", PBool false);
                         ("resources", PList []);
                         ("success", PBool true) ] |}) /\
  (forall resp x l,
     outcome (chat model req) = Ok resp ->
     field resp "resources" = Some (PList (x :: l)) ->
     field resp "is_crisis" = Some (PBool true) /\
     exists d s,
       get_json req = Ok (PDict d) /\
       items_get d "message" = Some (PStr s) /\
       is_crisis_message (PyStr.strip s) = true).
Proof.
  split.
  - intros d s Hj Hg Hm Hne Hc.
    destruct (generate_response_returns model (PyStr.strip s)) as (t & r & Hgr).
    pose proof (chat_body_message model req d s Hj Hg Hm) as Hb.
    rewrite Hne, (respond_plain model _ t r Hc Hgr) in Hb.
    exists r. now rewrite (chat_of_body_ok _ _ _ _ Hb).
  - intros resp x l Hout Hres.
    destruct (chat_paths model req) as [_ H | H | H | d s entry Hg Hm Hc H
                                       | d s text Hg Hm Hc H];
      rewrite H in Hout; injection Hout as <-;
      try (vm_compute in Hres; discriminate).
    split; [reflexivity|]. now exists d, s.
Qed.

(** C9 at "hello", with a model whose call raises and with a model that
    answers " ". *)
Lemma C9_witness :
  (exists text,
     outcome (chat failing_model (message_request "hello")) =
       Ok {| status := 200;
             body := [ ("response", PStr text);
                       ("is_crisis", PBool false);
                       ("resources", PList []);
                       ("success", PBool true) ] |}) /\
  (exists text,
     outcome (chat blank_model (message_request "hello")) =
       Ok {| status := 200;
             body := [ ("response", PStr text);
                       ("is_crisis", PBool false);
                       ("resources", PList []);
                       ("success", PBool true) ] |}).
Proof.
  split.
  - apply (proj1 (C9_plain_reply_shape failing_model (message_request "hello"))
             [("message", PStr "hello")] "hello"); reflexivity.
  - apply (proj1 (C9_plain_reply_shape blank_model (message_request "hello"))
             [("message", PStr "hello")] "hello"); reflexivity.
Defined.

(** C10: a JSON object whose "message" is present and is no string (None,
    a boolean, a number, a list, an object) is answered by the [except]
    clause: status 500 and success false, not status 400; [strip] raises
    AttributeError on the value. *)
Theorem C10_non_string_message (model : Model) (req : request)
        (d : list (string * pyval)) (v : pyval) :
  is_json req = true ->
  get_json req = Ok (PDict d) ->
  items_get d "message" = Some v ->
  (forall s, v <> PStr s) ->
  chat_body model req = ([], Raise (AttributeError v "strip")) /\
  outcome (chat model req) =
    Ok {| status := 500;
          body := [ ("response", PStr "I'm unable to respond properly right now. Please try again later.");
                    ("success", PBool false) ] |} /\
  events (chat model req) =
    [Log ERROR ("Endpoint error: '" ++ type_name v
                ++ "' object has no attribute 'strip'")].
Proof.
  intros Hj Hg Hm Hv.
  assert (Hb : chat_body model req = ([], Raise (AttributeError v "strip"))).
  { unfold chat_body, get. rewrite Hj, Hg. simpl negb. cbv iota.
    rewrite bind_lift_ok, Hm, bind_ret.
    destruct v; try reflexivity. now destruct (Hv s). }
  split; [exact Hb|].
  rewrite (chat_of_body_raise model req _ _ Hb). split; reflexivity.
Qed.

(** C10 at the bodies {"message": 5} and {"message": [1, 2]}. *)
Lemma C10_witness :
  status_of (outcome (chat failing_model number_request)) = Some 500%Z /\
  outcome (chat failing_model
             {| is_json := true;
                get_json := Ok (PDict [("message",
                                        PList [PInt 1; PInt 2])]) |}) =
    Ok {| status := 500;
          body := [ ("response", PStr "I'm unable to respond properly right now. Please try again later.");
                    ("success", PBool false) ] |}.
Proof.
  split.
  - assert (Hv : forall s, PInt 5 <> PStr s) by discriminate.
    destruct (C10_non_string_message failing_model number_request
                [("message", PInt 5)] (PInt 5) eq_refl eq_refl eq_refl Hv)
      as (_ & H & _).
    unfold status_of. now rewrite H.
  - apply (C10_non_string_message failing_model _
             [("message", PList [PInt 1; PInt 2])] (PList [PInt 1; PInt 2]));
      try reflexivity; discriminate.
Defined.

(* ------------------------------------------------------------------ *)
(** * Further facts on strings *)

Local Transparent String.append.

Lemma sapp_assoc (a b c : string) : (a ++ b) ++ c = a ++ b ++ c.
Proof. induction a as [|x a IH]; simpl; [reflexivity | now rewrite IH]. Qed.

Lemma sapp_nil_r (a : string) : a ++ "" = a.
Proof. induction a as [|x a IH]; simpl; [reflexivity | now rewrite IH]. Qed.

Lemma contains_app_mid (n pre m suf : string) :
  PyStr.contains n m = true -> PyStr.contains n (pre ++ m ++ suf) = true.
Proof.
  intros H. apply contains_spec in H as (p & q & ->).
  apply contains_spec. exists (pre ++ p), (q ++ suf).
  now rewrite !sapp_assoc.
Qed.

Lemma contains_trans (n m t : string) :
  PyStr.contains n m = true -> PyStr.contains m t = true ->
  PyStr.contains n t = true.
Proof.
  intros Hn Hm. apply contains_spec in Hm as (p & q & ->).
  now apply contains_app_mid.
Qed.

Lemma all_chars_app (p : ascii -> bool) (a b : string) :
  all_chars p (a ++ b) = all_chars p a && all_chars p b.
Proof.
  induction a as [|x a IH]; simpl; [reflexivity|].
  now rewrite IH, andb_assoc.
Qed.

Lemma lstrip_decomp (s : string) :
  exists ws, s = ws ++ PyStr.lstrip s /\ all_chars PyStr.is_space ws = true.
Proof.
  induction s as [|c s (ws & E & Hws)]; simpl.
  - now exists "".
  - destruct (PyStr.is_space c) eqn:Hc.
    + exists (String c ws). simpl. rewrite Hc, Hws. split; [|reflexivity].
      now rewrite <- E.
    + now exists "".
Qed.

Lemma rstrip_decomp (s : string) :
  exists ws, s = PyStr.rstrip s ++ ws /\ all_chars PyStr.is_space ws = true.
Proof.
  induction s as [|c s (ws & E & Hws)]; simpl.
  - now exists "".
  - destruct (PyStr.rstrip s) as [|d r] eqn:Hr.
    + simpl in E. subst ws.
      destruct (PyStr.is_space c) eqn:Hc.
      * exists (String c s). simpl. now rewrite Hc, Hws.
      * exists s. now simpl.
    + exists ws. split; [|exact Hws]. simpl. now rewrite E at 1.
Qed.

(** [s] is [strip s] between two runs of white space. *)
Lemma strip_decomp (s : string) :
  exists l r,
    s = l ++ PyStr.strip s ++ r /\
    all_chars PyStr.is_space l = true /\ all_chars PyStr.is_space r = true.
Proof.
  destruct (lstrip_decomp s) as (l & El & Hl).
  destruct (rstrip_decomp (PyStr.lstrip s)) as (r & Er & Hr).
  exists l, r. unfold PyStr.strip. now rewrite <- Er.
Qed.

Lemma rstrip_cons_solid (c : ascii) (s : string) :
  PyStr.is_space c = false ->
  PyStr.rstrip (String c s) = String c (PyStr.rstrip s).
Proof. intros Hc. simpl. rewrite Hc. now destruct (PyStr.rstrip s). Qed.

Lemma rstrip_app_keep (x y : string) :
  PyStr.rstrip y <> "" -> PyStr.rstrip (x ++ y) = x ++ PyStr.rstrip y.
Proof.
  intros Hy. induction x as [|a x IH]; simpl; [reflexivity|].
  rewrite IH. destruct (x ++ PyStr.rstrip y) eqn:E; [|reflexivity].
  destruct x; simpl in E; [contradiction | discriminate].
Qed.

Lemma last_char_split (n : string) (c : ascii) :
  last_char n = Some c -> exists n0, n = n0 ++ String c "".
Proof.
  induction n as [|a n IH]; simpl; [discriminate|].
  destruct n as [|b n].
  - intros [= ->]. now exists "".
  - intros H. destruct (IH H) as [n0 E]. exists (String a n0).
    simpl. now rewrite <- E.
Qed.

Lemma last_char_none (n : string) : last_char n = None -> n = "".
Proof.
  induction n as [|a n IH]; simpl; [reflexivity|].
  destruct n as [|b n]; [discriminate|].
  intros H. specialize (IH H). discriminate.
Qed.

Lemma lstrip_first (s : string) :
  forall c, first_char (PyStr.lstrip s) = Some c -> PyStr.is_space c = false.
Proof.
  induction s as [|a s IH]; simpl; intros c H; [discriminate|].
  destruct (PyStr.is_space a) eqn:Ha; [now apply IH|].
  simpl in H. now injection H as <-.
Qed.

Lemma rstrip_last (s : string) :
  forall c, last_char (PyStr.rstrip s) = Some c -> PyStr.is_space c = false.
Proof.
  induction s as [|a s IH]; intros c; [discriminate|].
  cbn [PyStr.rstrip]. destruct (PyStr.rstrip s) as [|d r] eqn:Hr.
  - destruct (PyStr.is_space a) eqn:Ha; simpl; [discriminate|].
    now intros [= <-].
  - intros H. apply IH. exact H.
Qed.

(** [s.strip()] neither starts nor ends with white space. *)
Lemma strip_trimmed (s : string) : trimmed (PyStr.strip s) = true.
Proof.
  unfold trimmed.
  destruct (first_char (PyStr.strip s)) as [a|] eqn:Ha; [|reflexivity].
  destruct (last_char (PyStr.strip s)) as [b|] eqn:Hb; [|reflexivity].
  unfold PyStr.strip in *.
  rewrite (rstrip_last _ _ Hb).
  destruct (PyStr.lstrip s) as [|c t] eqn:Hl; [discriminate|].
  assert (Hc : PyStr.is_space c = false)
    by (apply (lstrip_first s); now rewrite Hl).
  rewrite (rstrip_cons_solid c t Hc) in Ha. simpl in Ha.
  injection Ha as <-. now rewrite Hc.
Qed.

Lemma lstrip_all_space (s : string) :
  all_chars PyStr.is_space s = true -> PyStr.lstrip s = "".
Proof.
  induction s as [|c s IH]; simpl; [reflexivity|].
  intros H. apply andb_true_iff in H as [Hc Hs]. rewrite Hc. now apply IH.
Qed.

(** [s.strip()] is empty exactly when [s] is white space throughout. *)
Lemma strip_empty_iff (s : string) :
  PyStr.strip s = "" <-> all_chars PyStr.is_space s = true.
Proof.
  split.
  - intros H. destruct (strip_decomp s) as (l & r & E & Hl & Hr).
    rewrite H in E. rewrite E, all_chars_app. simpl. now rewrite Hl, Hr.
  - intros H. unfold PyStr.strip. now rewrite (lstrip_all_space s H).
Qed.

Lemma strip_all_chars (p : ascii -> bool) (s : string) :
  all_chars p s = true -> all_chars p (PyStr.strip s) = true.
Proof.
  destruct (strip_decomp s) as (l & r & E & _ & _).
  intros H. rewrite E, !all_chars_app in H.
  apply andb_true_iff in H as [_ H]. now apply andb_true_iff in H as [H _].
Qed.

Lemma sub_stars_no_star (s : string) :
  all_chars (fun c => negb (is_star c)) (PyStr.sub_stars s) = true.
Proof.
  induction s as [|c s IH]; simpl; [reflexivity|].
  destruct (Ascii.eqb c "*") eqn:E; [exact IH|].
  simpl. unfold is_star at 1. now rewrite E, IH.
Qed.

Lemma sub_stars_all_space (s : string) :
  all_chars PyStr.is_space (PyStr.sub_stars s) =
  all_chars (fun c => is_star c || PyStr.is_space c) s.
Proof.
  induction s as [|c s IH]; simpl; [reflexivity|].
  unfold is_star at 1. destruct (Ascii.eqb c "*") eqn:E; simpl.
  - exact IH.
  - now rewrite IH.
Qed.

Lemma contains_lstrip (n t : string) (a : ascii) :
  first_char n = Some a -> PyStr.is_space a = false ->
  PyStr.contains n t = true -> PyStr.contains n (PyStr.lstrip t) = true.
Proof.
  intros Hn Ha. destruct n as [|a' n]; [discriminate|].
  simpl in Hn. injection Hn as ->.
  induction t as [|c t IH]; [trivial|].
  intros H. cbn [PyStr.lstrip].
  destruct (PyStr.is_space c) eqn:Hc; [|exact H].
  apply IH. cbn [PyStr.contains PyStr.startswith] in H.
  destruct (Ascii.eqb a c) eqn:E.
  - apply Ascii.eqb_eq in E. subst c. congruence.
  - exact H.
Qed.

Lemma contains_rstrip (n t : string) (c : ascii) :
  last_char n = Some c -> PyStr.is_space c = false ->
  PyStr.contains n t = true -> PyStr.contains n (PyStr.rstrip t) = true.
Proof.
  intros Hn Hc H.
  destruct (last_char_split n c Hn) as [n0 ->].
  apply contains_spec in H as (pre & suf & ->).
  assert (E : pre ++ (n0 ++ String c "") ++ suf
              = (pre ++ n0) ++ String c suf)
    by now rewrite !sapp_assoc.
  rewrite E, rstrip_app_keep, (rstrip_cons_solid c suf Hc).
  - apply contains_spec. exists pre, (PyStr.rstrip suf).
    now rewrite !sapp_assoc.
  - rewrite (rstrip_cons_solid c suf Hc). discriminate.
Qed.

(** A word that does not start or end with white space occurs in
    [t.strip()] exactly when it occurs in [t]. *)
Lemma contains_strip (n t : string) :
  solid n = true ->
  PyStr.contains n (PyStr.strip t) = PyStr.contains n t.
Proof.
  intros Hn. unfold solid, trimmed in Hn.
  apply andb_true_iff in Hn as [Hne Hn].
  destruct (first_char n) as [a|] eqn:Ha;
    [|destruct n; simpl in *; discriminate].
  destruct (last_char n) as [b|] eqn:Hb.
  2:{ rewrite (last_char_none n Hb) in Hne. simpl in Hne. discriminate. }
  apply andb_true_iff in Hn as [Hsa Hsb].
  apply negb_true_iff in Hsa, Hsb.
  apply eq_true_iff_eq. split; intros H.
  - destruct (strip_decomp t) as (l & r & E & _ & _).
    rewrite E. now apply contains_app_mid.
  - unfold PyStr.strip.
    apply (contains_rstrip n _ b Hb Hsb).
    now apply (contains_lstrip n t a Ha Hsa).
Qed.

Lemma lower_char_space (c : ascii) :
  PyStr.is_space (PyStr.lower_char c) = PyStr.is_space c.
Proof. destruct c as [[] [] [] [] [] [] [] []]; reflexivity. Qed.

Lemma lower_char_idem (c : ascii) :
  PyStr.lower_char (PyStr.lower_char c) = PyStr.lower_char c.
Proof. destruct c as [[] [] [] [] [] [] [] []]; reflexivity. Qed.

Lemma lower_idem (s : string) : PyStr.lower (PyStr.lower s) = PyStr.lower s.
Proof.
  induction s as [|c s IH]; simpl; [reflexivity|].
  now rewrite lower_char_idem, IH.
Qed.

Lemma lower_lstrip (s : string) :
  PyStr.lower (PyStr.lstrip s) = PyStr.lstrip (PyStr.lower s).
Proof.
  induction s as [|c s IH]; simpl; [reflexivity|].
  rewrite lower_char_space. destruct (PyStr.is_space c); [exact IH|reflexivity].
Qed.

Lemma lower_rstrip (s : string) :
  PyStr.lower (PyStr.rstrip s) = PyStr.rstrip (PyStr.lower s).
Proof.
  induction s as [|c s IH]; simpl; [reflexivity|].
  rewrite <- IH, lower_char_space.
  destruct (PyStr.rstrip s); simpl; [|reflexivity].
  now destruct (PyStr.is_space c).
Qed.

(** Lower-casing and stripping commute. *)
Lemma lower_strip (s : string) :
  PyStr.lower (PyStr.strip s) = PyStr.strip (PyStr.lower s).
Proof. unfold PyStr.strip. now rewrite lower_rstrip, lower_lstrip. Qed.

Lemma existsb_contains_strip (words : list string) (t : string) :
  forallb solid words = true ->
  existsb (fun w => PyStr.contains w (PyStr.strip t)) words =
  existsb (fun w => PyStr.contains w t) words.
Proof.
  induction words as [|w words IH]; simpl; [reflexivity|].
  intros H. apply andb_true_iff in H as [Hw Hws].
  now rewrite (contains_strip w t Hw), IH.
Qed.

Lemma existsb_contains_mid (words : list string) (pre m suf : string) :
  existsb (fun w => PyStr.contains w m) words = true ->
  existsb (fun w => PyStr.contains w (pre ++ m ++ suf)) words = true.
Proof.
  rewrite !existsb_exists. intros (w & Hin & H). exists w. split; [exact Hin|].
  now apply contains_app_mid.
Qed.

(* ------------------------------------------------------------------ *)
(** * Every run of the handler *)

Local Opaque String.append.

Lemma chat_runs (model : Model) (req : request) : chat_run model req.
Proof.
  destruct (is_json req) eqn:Hj.
  2:{ apply run_not_json; [exact Hj|].
      unfold chat, chat_body. rewrite Hj. reflexivity. }
  assert (Hbad : forall e, chat_body model req = ([], Raise e) ->
                           expected_status req = 500%Z ->
                           chat_run model req).
  { intros e H Hs. apply (run_error model req e Hj Hs).
    now rewrite (chat_of_body_raise model req [] e H). }
  destruct (get_json req) as [data|e] eqn:Hg.
  2:{ apply (Hbad e).
      - unfold chat_body. rewrite Hj, Hg. reflexivity.
      - unfold expected_status. now rewrite Hj, Hg. }
  destruct data as [ | b | n | q | s0 | l | d ];
    try (eapply Hbad;
         [ unfold chat_body; rewrite Hj, Hg; reflexivity
         | unfold expected_status; now rewrite Hj, Hg ]).
  destruct (items_get d "message") as [v|] eqn:Hm.
  2:{ apply run_empty; [exact Hj | |].
      - unfold expected_status. now rewrite Hj, Hg, Hm.
      - apply chat_of_body_ok. now apply chat_body_missing with (d := d). }
  destruct v as [ | b | n | q | s | l | d' ];
    try (eapply Hbad;
         [ unfold chat_body, get; rewrite Hj, Hg; simpl negb; cbv iota;
           rewrite bind_lift_ok, Hm, bind_ret; reflexivity
         | unfold expected_status; now rewrite Hj, Hg, Hm ]).
  pose proof (chat_body_message model req d s Hj Hg Hm) as Hb.
  destruct (PyStr.is_empty (PyStr.strip s)) eqn:Hne.
  { apply run_empty; [exact Hj | |].
    - unfold expected_status. now rewrite Hj, Hg, Hm.
    - now apply chat_of_body_ok. }
  destruct (is_crisis_message (PyStr.strip s)) eqn:Hc.
  - destruct (respond_crisis model _ Hc) as (entry & He & Hr).
    rewrite Hr in Hb.
    apply (run_crisis model req d s entry Hj Hg Hm Hc He).
    now apply chat_of_body_ok.
  - destruct (generate_response_returns model (PyStr.strip s)) as (t & r & Hgr).
    rewrite (respond_plain model _ t r Hc Hgr) in Hb.
    apply (run_plain model req d s t r Hj Hg Hm Hne Hc Hgr).
    now apply chat_of_body_ok.
Qed.

(* ------------------------------------------------------------------ *)
(** * Further properties *)

(** X1: every request is answered, whatever the model does, and the
    status depends on the shape of the request alone: 400 without a JSON
    content type, 200 for an object whose "message" is missing or a
    string, 500 otherwise.  The body says success false exactly with
    status 500, and carries the "error" field exactly with status 400. *)
Theorem X1_status_by_request_shape (model : Model) (req : request) :
  exists resp,
    outcome (chat model req) = Ok resp /\
    status resp = expected_status req /\
    (field resp "success" = Some (PBool false) <-> status resp = 500%Z) /\
    (field resp "error" = Some (PStr "JSON input required")
     <-> status resp = 400%Z).
Proof.
  destruct (chat_runs model req)
    as [Hj H | e Hj Hs H | Hj Hs H | d s entry Hj Hg Hm Hc He H
        | d s t r Hj Hg Hm Hne Hc Hgr H];
    rewrite H; eexists; (split; [reflexivity|]).
  - unfold expected_status. rewrite Hj.
    repeat split; intros; try reflexivity; discriminate.
  - rewrite Hs. repeat split; intros; try reflexivity; discriminate.
  - rewrite Hs. repeat split; intros; try reflexivity; discriminate.
  - unfold expected_status. rewrite Hj, Hg, Hm.
    repeat split; intros; try reflexivity; discriminate.
  - unfold expected_status. rewrite Hj, Hg, Hm.
    repeat split; intros; try reflexivity; discriminate.
Qed.

(** X2: a JSON request whose body does not decode, or decodes to a value
    that is no object, is answered by the [except] clause with status 500;
    the one event is the error record, with the text of the exception of
    [get_json()] or of the AttributeError of [get]. *)
Theorem X2_body_not_an_object (model : Model) (req : request) :
  is_json req = true ->
  (forall d, get_json req <> Ok (PDict d)) ->
  chat model req =
    ([Log ERROR ("Endpoint error: " ++
                 exn_str match get_json req with
                         | Raise e => e
                         | Ok data => AttributeError data "get"
                         end)],
     Ok {| status := 500;
           body := [ ("response", PStr "I'm unable to respond properly right now. Please try again later.");
                     ("success", PBool false) ] |}).
Proof.
  intros Hj Hnot.
  assert (Hb : chat_body model req =
               ([], Raise match get_json req with
                          | Raise e => e
                          | Ok data => AttributeError data "get"
                          end)).
  { unfold chat_body. rewrite Hj.
    destruct (get_json req) as [data|e]; [|reflexivity].
    destruct data; try reflexivity. now destruct (Hnot d). }
  now rewrite (chat_of_body_raise model req _ _ Hb).
Qed.

(** X2 at the body [[]] and at a body whose decoding raises. *)
Lemma X2_witness :
  chat failing_model {| is_json := true; get_json := Ok (PList []) |} =
    ([Log ERROR "Endpoint error: 'list' object has no attribute 'get'"],
     Ok error_reply) /\
  chat failing_model
       {| is_json := true;
          get_json := Raise (Exn "BadRequest" "400 Bad Request") |} =
    ([Log ERROR "Endpoint error: 400 Bad Request"], Ok error_reply).
Proof.
  split.
  - apply (X2_body_not_an_object failing_model
             {| is_json := true; get_json := Ok (PList []) |});
      [reflexivity | discriminate].
  - apply (X2_body_not_an_object failing_model
             {| is_json := true;
                get_json := Raise (Exn "BadRequest" "400 Bad Request") |});
      [reflexivity | discriminate].
Defined.

Lemma indicators_solid : forallb solid crisis_indicators = true.
Proof. reflexivity. Qed.

Lemma category_words_solid : forallb solid category_words = true.
Proof. reflexivity. Qed.

Lemma is_crisis_message_strip (s : string) :
  is_crisis_message (PyStr.strip s) = is_crisis_message s.
Proof.
  unfold is_crisis_message. rewrite lower_strip.
  apply existsb_contains_strip, indicators_solid.
Qed.

Lemma crisis_type_of_strip (s : string) :
  crisis_type_of (PyStr.strip s) = crisis_type_of s.
Proof.
  unfold crisis_type_of. rewrite lower_strip.
  now rewrite (existsb_contains_strip category_words _ category_words_solid).
Qed.

(** X3: white space around a message and the case of its letters do not
    change the verdict: the flag and the category of [s.strip()] and of
    [s.lower()] are those of [s]. *)
Theorem X3_verdict_of_normalised_message (s : string) :
  is_crisis_message (PyStr.strip s) = is_crisis_message s /\
  crisis_type_of (PyStr.strip s) = crisis_type_of s /\
  is_crisis_message (PyStr.lower s) = is_crisis_message s /\
  crisis_type_of (PyStr.lower s) = crisis_type_of s.
Proof.
  split; [apply is_crisis_message_strip|].
  split; [apply crisis_type_of_strip|].
  unfold is_crisis_message, crisis_type_of. now rewrite lower_idem.
Qed.

(** X4: text around a message never clears the verdict: a flagged message
    stays flagged inside any longer message, and a category "suicide"
    stays "suicide". *)
Theorem X4_verdict_inside_longer_message (pre m suf : string) :
  is_crisis_message m = true ->
  is_crisis_message (pre ++ m ++ suf) = true /\
  (crisis_type_of m = "suicide" ->
   crisis_type_of (pre ++ m ++ suf) = "suicide").
Proof.
  intros Hc. unfold is_crisis_message, crisis_type_of in *.
  rewrite !lower_app. split.
  - now apply existsb_contains_mid.
  - intros Ht.
    destruct (existsb (fun w => PyStr.contains w (PyStr.lower m))
                      ["suicide"; "die"; "end it"]) eqn:E; [|discriminate].
    now rewrite (existsb_contains_mid _ _ _ _ E).
Qed.

(** X4 at "want to die" inside "Some days I want to die, honestly". *)
Lemma X4_witness :
  is_crisis_message ("Some days I " ++ "want to die" ++ ", honestly") = true /\
  (crisis_type_of "want to die" = "suicide" ->
   crisis_type_of ("Some days I " ++ "want to die" ++ ", honestly")
     = "suicide").
Proof.
  apply (X4_verdict_inside_longer_message "Some days I " "want to die"
           ", honestly").
  reflexivity.
Defined.

(** The reply on the crisis path, for the message as it was sent. *)
Lemma chat_crisis_raw (model : Model) (req : request)
      (d : list (string * pyval)) (s : string) :
  is_json req = true ->
  get_json req = Ok (PDict d) ->
  items_get d "message" = Some (PStr s) ->
  is_crisis_message s = true ->
  exists entry,
    table_get CRISIS_RESOURCES (crisis_type_of s) = Some entry /\
    chat model req =
      ([ Classify (PyStr.strip s);
         Log INFO ("User: " ++ PyStr.strip s);
         Log INFO ("AI: " ++ response entry) ],
       Ok (full_reply (response entry) true (resources entry))).
Proof.
  intros Hj Hg Hm Hc. rewrite <- is_crisis_message_strip in Hc.
  destruct (respond_crisis model _ Hc) as (entry & He & Hr).
  rewrite crisis_type_of_strip in He.
  exists entry. split; [exact He|].
  pose proof (chat_body_message model req d s Hj Hg Hm) as Hb.
  rewrite (crisis_nonempty _ Hc), Hr in Hb.
  now apply chat_of_body_ok.
Qed.

(** X5: the indicators "suicide", "want to die" and "end it all" each hold
    a category word, so a message with one of them is flagged with
    category "suicide"; a message of category "self-harm" was flagged by
    one of "kill myself", "cut myself", "self harm", "hurt myself",
    "ending my life". *)
Theorem X5_category_by_indicator (m : string) :
  ((exists w, In w ["suicide"; "want to die"; "end it all"] /\
              PyStr.contains w (PyStr.lower m) = true) ->
   is_crisis_message m = true /\ crisis_type_of m = "suicide") /\
  (is_crisis_message m = true -> crisis_type_of m = "self-harm" ->
   exists w, In w ["kill myself"; "cut myself"; "self harm"; "hurt myself";
                   "ending my life"] /\
             PyStr.contains w (PyStr.lower m) = true).
Proof.
  split.
  - intros (w & Hin & Hw). split.
    + unfold is_crisis_message. apply existsb_exists. exists w.
      split; [|exact Hw]. unfold crisis_indicators. simpl in *. tauto.
    + apply crisis_type_of_suicide.
      assert (Hk : exists k, In k category_words /\ PyStr.contains k w = true).
      { simpl in Hin. destruct Hin as [<- | [<- | [<- | []]]].
        - exists "suicide". split; [simpl; tauto | reflexivity].
        - exists "die". split; [simpl; tauto | reflexivity].
        - exists "end it". split; [simpl; tauto | reflexivity]. }
      destruct Hk as (k & Hk & Hkw). exists k. split; [exact Hk|].
      apply contains_spec. exact (contains_trans k w _ Hkw Hw).
  - intros Hc Ht. unfold is_crisis_message in Hc.
    apply existsb_exists in Hc as (w & Hin & Hw).
    assert (Hno : forall k, In k category_words ->
                            PyStr.contains k w = true -> False).
    { intros k Hk Hkw.
      apply (proj1 (crisis_type_of_self_harm m) Ht).
      exists k. split; [exact Hk|].
      apply contains_spec. exact (contains_trans k w _ Hkw Hw). }
    exists w. split; [|exact Hw].
    unfold crisis_indicators in Hin. simpl in Hin. simpl.
    destruct Hin as [<- | [<- | [<- | [<- | [<- | [<- | [<- | [<- | []]]]]]]]];
      try tauto.
    + destruct (Hno "end it"); [simpl; tauto | reflexivity].
    + destruct (Hno "die"); [simpl; tauto | reflexivity].
    + destruct (Hno "suicide"); [simpl; tauto | reflexivity].
Qed.

(** X5 at "I WANT TO DIE" and at "I hurt myself again". *)
Lemma X5_witness :
  (is_crisis_message "I WANT TO DIE" = true /\
   crisis_type_of "I WANT TO DIE" = "suicide") /\
  exists w, In w ["kill myself"; "cut myself"; "self harm"; "hurt myself";
                  "ending my life"] /\
            PyStr.contains w (PyStr.lower "I hurt myself again") = true.
Proof.
  split.
  - apply (proj1 (X5_category_by_indicator "I WANT TO DIE")).
    exists "want to die". split; [simpl; tauto | reflexivity].
  - apply (proj2 (X5_category_by_indicator "I hurt myself again"));
      reflexivity.
Defined.

(** X6: the crisis reply is fixed by the message as it was sent: for a
    JSON object whose "message" is a flagged string, the handler answers
    with the text and the two resources of the "suicide" entry when the
    lower-cased message holds "suicide", "die" or "end it", and with the
    text and the one resource of the "self-harm" entry otherwise; the
    events are the entry into the classifier and the two log records. *)
Theorem X6_crisis_reply (model : Model) (req : request)
        (d : list (string * pyval)) (s : string) :
  is_json req = true ->
  get_json req = Ok (PDict d) ->
  items_get d "message" = Some (PStr s) ->
  is_crisis_message s = true ->
  let text :=
    if existsb (fun w => PyStr.contains w (PyStr.lower s))
               ["suicide"; "die"; "end it"]
    then "I'm deeply concerned about you. Please call the 988 Suicide & Crisis Lifeline now at 988 (US) or your local emergency number."
    else "Your safety matters. Please reach out to someone you trust or text HOME to 741741 to connect with a crisis counselor." in
  let res :=
    if existsb (fun w => PyStr.contains w (PyStr.lower s))
               ["suicide"; "die"; "end it"]
    then ["988 Suicide & Crisis Lifeline";
          "Crisis Text Line: Text HOME to 741741"]
    else ["Crisis Text Line: Text HOME to 741741"] in
  chat model req =
    ([ Classify (PyStr.strip s);
       Log INFO ("User: " ++ PyStr.strip s);
       Log INFO ("AI: " ++ text) ],
     Ok (full_reply text true res)).
Proof.
  intros Hj Hg Hm Hc. cbv zeta.
  destruct (chat_crisis_raw model req d s Hj Hg Hm Hc) as (entry & He & ->).
  unfold crisis_type_of in He.
  destruct (existsb (fun w => PyStr.contains w (PyStr.lower s))
                    ["suicide"; "die"; "end it"]);
    vm_compute in He; injection He as <-; reflexivity.
Qed.

(** X6 at "  I cut myself  ". *)
Lemma X6_witness :
  chat failing_model (message_request "  I cut myself  ") =
    ([ Classify "I cut myself";
       Log INFO "User: I cut myself";
       Log INFO "AI: Your safety matters. Please reach out to someone you trust or text HOME to 741741 to connect with a crisis counselor." ],
     Ok (full_reply
           "Your safety matters. Please reach out to someone you trust or text HOME to 741741 to connect with a crisis counselor."
           true ["Crisis Text Line: Text HOME to 741741"])).
Proof.
  apply (X6_crisis_reply failing_model (message_request "  I cut myself  ")
           [("message", PStr "  I cut myself  ")] "  I cut myself  ");
    reflexivity.
Defined.

(** X7: a reply that says is_crisis true has status 200, says success
    true and lists "Crisis Text Line: Text HOME to 741741" among its
    resources; a reply that says is_crisis false lists no resource. *)
Theorem X7_crisis_flag_and_resources (model : Model) (req : request)
        (resp : http_response) (b : bool) :
  outcome (chat model req) = Ok resp ->
  field resp "is_crisis" = Some (PBool b) ->
  status resp = 200%Z /\
  field resp "success" = Some (PBool true) /\
  exists l,
    field resp "resources" = Some (PList l) /\
    if b then In (PStr "Crisis Text Line: Text HOME to 741741") l
    else l = [].
Proof.
  intros Hout Hb.
  destruct (chat_runs model req)
    as [Hj H | e Hj Hs H | Hj Hs H | d s entry Hj Hg Hm Hc He H
        | d s t r Hj Hg Hm Hne Hc Hgr H];
    rewrite H in Hout; injection Hout as <-;
    try (vm_compute in Hb; discriminate).
  - injection Hb as <-. split; [reflexivity|]. split; [reflexivity|].
    eexists. split; [reflexivity|].
    destruct (crisis_type_of_cases (PyStr.strip s)) as [E | E];
      rewrite E in He; vm_compute in He; injection He as <-;
      simpl; tauto.
  - injection Hb as <-. split; [reflexivity|]. split; [reflexivity|].
    exists []. split; reflexivity.
Qed.

(** X7 at "I want to kill myself" and at "hello". *)
Lemma X7_witness :
  (status (full_reply
             "Your safety matters. Please reach out to someone you trust or text HOME to 741741 to connect with a crisis counselor."
             true ["Crisis Text Line: Text HOME to 741741"]) = 200%Z /\
   field (full_reply
            "Your safety matters. Please reach out to someone you trust or text HOME to 741741 to connect with a crisis counselor."
            true ["Crisis Text Line: Text HOME to 741741"]) "success"
     = Some (PBool true) /\
   exists l,
     field (full_reply
              "Your safety matters. Please reach out to someone you trust or text HOME to 741741 to connect with a crisis counselor."
              true ["Crisis Text Line: Text HOME to 741741"]) "resources"
       = Some (PList l) /\
     In (PStr "Crisis Text Line: Text HOME to 741741") l) /\
  (status (full_reply fallback_text false []) = 200%Z /\
   field (full_reply fallback_text false []) "success" = Some (PBool true) /\
   exists l,
     field (full_reply fallback_text false []) "resources" = Some (PList l) /\
     l = []).
Proof.
  split.
  - apply (X7_crisis_flag_and_resources failing_model
             (message_request "I want to kill myself") _ true);
      reflexivity.
  - apply (X7_crisis_flag_and_resources failing_model
             (message_request "hello") _ false);
      reflexivity.
Defined.

(** X8: what is logged is what is returned: when the reply says success
    true, the last two events of the request are the INFO records
    "User: " with the stripped message and "AI: " with the very text of
    the reply. *)
Theorem X8_log_matches_reply (model : Model) (req : request)
        (resp : http_response) :
  outcome (chat model req) = Ok resp ->
  field resp "success" = Some (PBool true) ->
  exists d s text pre,
    get_json req = Ok (PDict d) /\
    items_get d "message" = Some (PStr s) /\
    field resp "response" = Some (PStr text) /\
    events (chat model req) =
      (pre ++ [ Log INFO ("User: " ++ PyStr.strip s);
                Log INFO ("AI: " ++ text) ])%list.
Proof.
  intros Hout Hs.
  destruct (chat_runs model req)
    as [Hj H | e Hj Hst H | Hj Hst H | d s entry Hj Hg Hm Hc He H
        | d s t r Hj Hg Hm Hne Hc Hgr H];
    rewrite H in Hout |- *; injection Hout as <-;
    try (vm_compute in Hs; discriminate).
  - exists d, s, (response entry), [Classify (PyStr.strip s)].
    repeat split; assumption.
  - exists d, s, r, (Classify (PyStr.strip s) :: t).
    repeat split; assumption.
Qed.

(** X8 at "hello" with a model that answers " ". *)
Lemma X8_witness :
  exists d s text pre,
    get_json (message_request "hello") = Ok (PDict d) /\
    items_get d "message" = Some (PStr s) /\
    field (full_reply "" false []) "response" = Some (PStr text) /\
    events (chat blank_model (message_request "hello")) =
      (pre ++ [ Log INFO ("User: " ++ PyStr.strip s);
                Log INFO ("AI: " ++ text) ])%list.
Proof.
  apply (X8_log_matches_reply blank_model (message_request "hello")
           (full_reply "" false [])); reflexivity.
Defined.

(** The run of the handler on a message that is not empty and not
    flagged, by what [generate_response] returns. *)
Lemma chat_plain (model : Model) (req : request)
      (d : list (string * pyval)) (s : string) (t : list event) (r : string) :
  is_json req = true ->
  get_json req = Ok (PDict d) ->
  items_get d "message" = Some (PStr s) ->
  PyStr.is_empty (PyStr.strip s) = false ->
  is_crisis_message (PyStr.strip s) = false ->
  generate_response model (PyStr.strip s) = (t, Ok r) ->
  chat model req =
    ((Classify (PyStr.strip s) :: t ++
      [ Log INFO ("User: " ++ PyStr.strip s); Log INFO ("AI: " ++ r) ])%list,
     Ok (full_reply r false [])).
Proof.
  intros Hj Hg Hm Hne Hc Hgr.
  pose proof (chat_body_message model req d s Hj Hg Hm) as Hb.
  rewrite Hne, (respond_plain model _ t r Hc Hgr) in Hb.
  now apply chat_of_body_ok.
Qed.

(** X9: when the model answers a message that is not empty and not
    flagged with a text that is not empty, the reply carries that text
    without its asterisks and stripped: it holds no asterisk and neither
    starts nor ends with white space; nothing is logged at level ERROR. *)
Theorem X9_cleaned_text (model : Model) (req : request)
        (d : list (string * pyval)) (s text : string) :
  is_json req = true ->
  get_json req = Ok (PDict d) ->
  items_get d "message" = Some (PStr s) ->
  PyStr.is_empty (PyStr.strip s) = false ->
  is_crisis_message (PyStr.strip s) = false ->
  model (THERAPY_CONTEXT ++ make_prompt (PyStr.strip s)) the_generation_config
    = Ok text ->
  text <> "" ->
  let cleaned := PyStr.strip (PyStr.sub_stars text) in
  chat model req =
    ([ Classify (PyStr.strip s);
       Classify (PyStr.strip s);
       Generate (THERAPY_CONTEXT ++ make_prompt (PyStr.strip s))
                the_generation_config;
       Log INFO ("User: " ++ PyStr.strip s);
       Log INFO ("AI: " ++ cleaned) ],
     Ok (full_reply cleaned false [])) /\
  all_chars (fun c => negb (is_star c)) cleaned = true /\
  trimmed cleaned = true.
Proof.
  intros Hj Hg Hm Hne Hc Hmodel Htext. cbv zeta.
  split; [|split].
  - pose proof (generate_response_plain model _ Hc) as Hgen.
    cbv zeta in Hgen. rewrite Hmodel in Hgen.
    destruct text as [|c text]; [contradiction|]. cbn [PyStr.is_empty] in Hgen.
    now rewrite (chat_plain model req d s _ _ Hj Hg Hm Hne Hc Hgen).
  - apply strip_all_chars, sub_stars_no_star.
  - apply strip_trimmed.
Qed.

(** X9 at "hello" with a model that answers " **I hear you.** ". *)
Lemma X9_witness :
  outcome (chat markdown_model (message_request "hello")) =
    Ok (full_reply "I hear you." false []).
Proof.
  assert (H := X9_cleaned_text markdown_model (message_request "hello")
                 [("message", PStr "hello")] "hello" " **I hear you.** "
                 eq_refl eq_refl eq_refl eq_refl eq_refl eq_refl).
  cbv zeta in H. destruct H as [H _]; [discriminate|].
  rewrite H. reflexivity.
Defined.

Local Transparent make_prompt.

Lemma prompt_holds_message (u : string) :
  PyStr.contains u (THERAPY_CONTEXT ++ make_prompt u) = true.
Proof.
  apply contains_spec. unfold make_prompt.
  exists (THERAPY_CONTEXT ++ nl ++ "        User message: ").
  eexists. rewrite !sapp_assoc. reflexivity.
Qed.

Local Opaque make_prompt.

(** X10: for a message that is not empty and not flagged the model is
    called exactly once, whatever it answers: no second attempt follows a
    failure.  The prompt starts with THERAPY_CONTEXT and holds the stripped
    message; the classifier is entered twice, by [chat()] and by
    [generate_response()]. *)
Theorem X10_one_model_call (model : Model) (req : request)
        (d : list (string * pyval)) (s : string) :
  is_json req = true ->
  get_json req = Ok (PDict d) ->
  items_get d "message" = Some (PStr s) ->
  PyStr.is_empty (PyStr.strip s) = false ->
  is_crisis_message (PyStr.strip s) = false ->
  let prompt := THERAPY_CONTEXT ++ make_prompt (PyStr.strip s) in
  model_calls (events (chat model req)) =
    [Generate prompt the_generation_config] /\
  classifier_calls (events (chat model req)) =
    [Classify (PyStr.strip s); Classify (PyStr.strip s)] /\
  PyStr.startswith THERAPY_CONTEXT prompt = true /\
  PyStr.contains (PyStr.strip s) prompt = true.
Proof.
  intros Hj Hg Hm Hne Hc. cbv zeta.
  pose proof (generate_response_plain model _ Hc) as Hgen. cbv zeta in Hgen.
  assert (Hev : exists t r,
             generate_response model (PyStr.strip s) = (t, Ok r) /\
             model_calls t =
               [Generate (THERAPY_CONTEXT ++ make_prompt (PyStr.strip s))
                         the_generation_config] /\
             classifier_calls t = [Classify (PyStr.strip s)]).
  { destruct (model _ _) as [text|e];
      [destruct (PyStr.is_empty text)|];
      rewrite Hgen; eexists; eexists; repeat split. }
  destruct Hev as (t & r & Hgr & Hmc & Hcc).
  rewrite (chat_plain model req d s t r Hj Hg Hm Hne Hc Hgr).
  unfold events, model_calls, classifier_calls in *. cbn [fst].
  split; [|split; [|split]].
  - cbn [filter is_generate]. rewrite filter_app, Hmc. reflexivity.
  - cbn [filter is_classify]. rewrite filter_app, Hcc. reflexivity.
  - apply startswith_app.
  - apply prompt_holds_message.
Qed.

(** X10 at "hello" with a model whose call raises. *)
Lemma X10_witness :
  model_calls (events (chat failing_model (message_request "hello"))) =
    [Generate (THERAPY_CONTEXT ++ make_prompt (PyStr.strip "hello"))
              the_generation_config] /\
  classifier_calls (events (chat failing_model (message_request "hello"))) =
    [Classify (PyStr.strip "hello"); Classify (PyStr.strip "hello")] /\
  PyStr.startswith THERAPY_CONTEXT
    (THERAPY_CONTEXT ++ make_prompt (PyStr.strip "hello")) = true /\
  PyStr.contains (PyStr.strip "hello")
    (THERAPY_CONTEXT ++ make_prompt (PyStr.strip "hello")) = true.
Proof.
  apply (X10_one_model_call failing_model (message_request "hello")
           [("message", PStr "hello")] "hello"); reflexivity.
Defined.

(** X11: for a message that is not empty and not flagged, the text of the
    reply is empty exactly when the model answers with a text that is not
    empty and is made of asterisks and white space alone. *)
Theorem X11_empty_reply_text (model : Model) (req : request)
        (d : list (string * pyval)) (s : string) :
  is_json req = true ->
  get_json req = Ok (PDict d) ->
  items_get d "message" = Some (PStr s) ->
  PyStr.is_empty (PyStr.strip s) = false ->
  is_crisis_message (PyStr.strip s) = false ->
  (outcome (chat model req) = Ok (full_reply "" false []) <->
   exists text,
     model (THERAPY_CONTEXT ++ make_prompt (PyStr.strip s))
           the_generation_config = Ok text /\
     text <> "" /\
     all_chars (fun c => is_star c || PyStr.is_space c) text = true).
Proof.
  intros Hj Hg Hm Hne Hc.
  pose proof (generate_response_plain model _ Hc) as Hgen. cbv zeta in Hgen.
  destruct (model _ _) as [text|e] eqn:Hmodel.
  - destruct text as [|c text]; cbn [PyStr.is_empty] in Hgen.
    + rewrite (chat_plain model req d s _ _ Hj Hg Hm Hne Hc Hgen).
      split.
      * intros H. vm_compute in H. discriminate.
      * intros (text & [= <-] & Hn & _). contradiction.
    + rewrite (chat_plain model req d s _ _ Hj Hg Hm Hne Hc Hgen).
      unfold outcome. cbn [snd].
      split.
      * intros [= H]. exists (String c text).
        split; [reflexivity|]. split; [discriminate|].
        rewrite <- sub_stars_all_space. now apply strip_empty_iff.
      * intros (text' & [= <-] & _ & H).
        rewrite <- sub_stars_all_space in H.
        apply strip_empty_iff in H. now rewrite H.
  - rewrite (chat_plain model req d s _ _ Hj Hg Hm Hne Hc Hgen).
    split.
    + intros H. vm_compute in H. discriminate.
    + intros (text & Habs & _). discriminate.
Qed.

(** X11 at "hello" with a model that answers " ". *)
Lemma X11_witness :
  outcome (chat blank_model (message_request "hello"))
    = Ok (full_reply "" false []).
Proof.
  apply (X11_empty_reply_text blank_model (message_request "hello")
           [("message", PStr "hello")] "hello"); try reflexivity.
  exists " ". split; [reflexivity|]. split; [discriminate | reflexivity].
Defined.

(** X12: start-up succeeds exactly when GEMINI_API_KEY is set and not
    empty and both [genai.configure] and [genai.GenerativeModel] return;
    the model is then the one made for "gemini-2.0-flash" and the one
    event is the INFO record.  Every failure is logged once, at level
    ERROR with its own text, and raised again; a key that is missing or
    empty raises ValueError before [genai] is touched. *)
Theorem X12_initialize (getenv : string -> option string)
        (configure : string -> result unit)
        (GenerativeModel : string -> result Model) :
  let run := initialize getenv configure GenerativeModel in
  (forall m,
     outcome run = Ok m <->
     exists key,
       getenv "GEMINI_API_KEY" = Some key /\ key <> "" /\
       configure key = Ok tt /\
       GenerativeModel "gemini-2.0-flash" = Ok m) /\
  (forall m, outcome run = Ok m ->
     events run = [Log INFO "Gemini Flash model successfully initialized"]) /\
  (forall e, outcome run = Raise e ->
     events run = [Log ERROR ("Initialization error: " ++ exn_str e)]) /\
  (getenv "GEMINI_API_KEY" = None \/ getenv "GEMINI_API_KEY" = Some "" ->
   run = ([Log ERROR "Initialization error: Missing Gemini API key in environment variables"],
          Raise (ValueError "Missing Gemini API key in environment variables"))).
Proof.
  cbv zeta. unfold initialize.
  destruct (getenv "GEMINI_API_KEY") as [[|c key]|] eqn:Hk.
  - repeat split; try discriminate.
    + intros (key & [= <-] & Hn & _). contradiction.
    + intros e [= <-]. reflexivity.
  - destruct (configure (String c key)) as [[]|e1] eqn:Hc.
    + destruct (GenerativeModel "gemini-2.0-flash") as [m1|e2] eqn:Hm.
      * repeat split; try discriminate.
        -- intros [= <-]. exists (String c key).
           repeat split; try assumption. discriminate.
        -- intros (key' & [= <-] & _ & _ & [= <-]). reflexivity.
        -- intros [H | H]; discriminate.
      * repeat split; try discriminate.
        -- intros (key' & [= <-] & _ & _ & H). congruence.
        -- intros e [= <-]. reflexivity.
        -- intros [H | H]; discriminate.
    + repeat split; try discriminate.
      * intros (key' & [= <-] & _ & H & _). congruence.
      * intros e [= <-]. reflexivity.
      * intros [H | H]; discriminate.
  - repeat split; try discriminate.
    + intros (key & H & _). discriminate.
    + intros e [= <-]. reflexivity.
Qed.

(** X12 with no GEMINI_API_KEY in the environment. *)
Lemma X12_witness :
  initialize (fun _ => None) (fun _ => Ok tt)
             (fun _ => Ok failing_model) =
    ([Log ERROR "Initialization error: Missing Gemini API key in environment variables"],
     Raise (ValueError "Missing Gemini API key in environment variables")).
Proof.
  apply (X12_initialize (fun _ => None) (fun _ => Ok tt)
           (fun _ => Ok failing_model)).
  left. reflexivity.
Defined.

(** X13: [generate_response] never raises: whatever the model does it
    returns a string, after at most one call of the model and none for a
    flagged message; when it logs, the string is the fallback text. *)
Theorem X13_generate_response_returns (model : Model) (u : string) :
  exists r,
    outcome (generate_response model u) = Ok r /\
    (length (model_calls (events (generate_response model u))) <= 1)%nat /\
    (is_crisis_message u = true ->
     model_calls (events (generate_response model u)) = []) /\
    (log_records (events (generate_response model u)) <> [] ->
     r = "I'm having trouble responding. Could you rephrase that or try again later?").
Proof.
  destruct (is_crisis_message u) eqn:Hc.
  - destruct (generate_response_crisis model u Hc) as (entry & _ & ->).
    exists (response entry). repeat split; simpl; auto.
    intros H. now destruct H.
  - rewrite (generate_response_plain model u Hc). cbv zeta.
    destruct (model _ _) as [text|e]; [destruct (PyStr.is_empty text)|];
      eexists; (split; [reflexivity|]);
      (split; [simpl; lia|]); (split; [discriminate|]);
      simpl; intros H; try reflexivity.
    now destruct H.
Qed.

(** X14: for a message that is not empty and not flagged, when the call
    of the model raises, or returns the empty text, the handler answers
    with status 200, the fallback text, is_crisis false, no resources and
    success true; [generate_response] returns the fallback text and raises
    nothing. *)
Theorem X14_fallback_on_failure (model : Model) (req : request)
        (d : list (string * pyval)) (s : string) :
  is_json req = true ->
  get_json req = Ok (PDict d) ->
  items_get d "message" = Some (PStr s) ->
  PyStr.is_empty (PyStr.strip s) = false ->
  is_crisis_message (PyStr.strip s) = false ->
  ((exists e, model (THERAPY_CONTEXT ++ make_prompt (PyStr.strip s))
                    the_generation_config = Raise e) \/
   model (THERAPY_CONTEXT ++ make_prompt (PyStr.strip s))
         the_generation_config = Ok "") ->
  outcome (generate_response model (PyStr.strip s)) =
    Ok "I'm having trouble responding. Could you rephrase that or try again later?" /\
  outcome (chat model req) =
    Ok {| status := 200;
          body := [ ("response", PStr "I'm having trouble responding. Could you rephrase that or try again later?");
                    ("is_crisis", PBool false);
                    ("resources", PList []);
                    ("success", PBool true) ] |}.
Proof.
  intros Hj Hg Hm Hne Hc Hfail.
  pose proof (generate_response_plain model _ Hc) as Hgen. cbv zeta in Hgen.
  assert (Hfb : exists t, generate_response model (PyStr.strip s)
                          = (t, Ok fallback_text)).
  { destruct Hfail as [[e He] | He]; rewrite He in Hgen; simpl in Hgen; eauto. }
  destruct Hfb as [t Ht].
  pose proof (chat_body_message model req d s Hj Hg Hm) as Hb.
  rewrite Hne, (respond_plain model _ t fallback_text Hc Ht) in Hb.
  rewrite (chat_of_body_ok _ _ _ _ Hb), Ht.
  split; reflexivity.
Qed.

(** X14 at "hello": with a model whose call raises, and with a model that
    answers with the empty text. *)
Lemma X14_witness :
  (outcome (generate_response failing_model (PyStr.strip "hello")) =
     Ok "I'm having trouble responding. Could you rephrase that or try again later?" /\
   outcome (chat failing_model (message_request "hello")) =
     Ok {| status := 200;
           body := [ ("response", PStr "I'm having trouble responding. Could you rephrase that or try again later?");
                     ("is_crisis", PBool false);
                     ("resources", PList []);
                     ("success", PBool true) ] |}) /\
  outcome (chat empty_model (message_request "hello")) =
    Ok (full_reply fallback_text false []).
Proof.
  split.
  - apply (X14_fallback_on_failure failing_model (message_request "hello")
             [("message", PStr "hello")] "hello");
      try reflexivity.
    left. eexists. reflexivity.
  - apply (X14_fallback_on_failure empty_model (message_request "hello")
             [("message", PStr "hello")] "hello");
      try reflexivity.
    right. reflexivity.
Defined.
